(** * Metrics-configuration-driven query and aggregation pipeline

    A shallow embedding of the Python sources
      - src/utils/metrics_config.py  (MetricsConfigUtils)
      - src/utils/spreadsheet.py     (read_as_dataframe, write_dataframe)
      - src/modules/google_ads.py    (GoogleAdsAPI)
      - src/main.py                  (main)
    and the statements of the specification settled against it.

    Conventions of the embedding.
      - A Python object is a [value].  A finite float is the rational it
        is ([VFloat q], with [q] a double); the operations round to the
        nearest double, ties to even ([round_double]).  NaN and the two
        infinities have constructors of their own; the sign of a zero is
        not kept.
      - A raised exception of class [Exception] is [Raise e];
        [try ... except Exception] is a match on the result.  A call that
        does not hand control back to any handler of the program, because
        it raises outside [Exception] (KeyboardInterrupt, SystemExit) or
        does not return, is [Abort].
      - A pandas DataFrame is a header of column labels and a list of rows.
      - A Python dict whose iteration order matters is an association list
        updated in place ([dict_set]); the per-row [variables] scope and
        the attributes of a service row are finite maps. *)

From Stdlib Require Import ZArith QArith Qround String Ascii List Bool Lia.
From Stdlib Require Import DecimalString.
From stdpp Require Import base decidable option list gmap strings.

Local Open Scope Z_scope.

(** ** Python values and exceptions *)

Inductive value : Type :=
| VNone
| VNaN
| VBool (b : bool)
| VInt (z : Z)
| VFloat (q : Q)
| VStr (s : string)
| VInf (negative : bool).

#[global] Instance Q_eq_dec : EqDecision Q.
Proof. solve_decision. Defined.

#[global] Instance value_eq_dec : EqDecision value.
Proof. solve_decision. Defined.

Inductive exn : Type :=
| ValueError
| TypeError
| KeyError
| IndexError
| NameError
| AttributeError
| OverflowError
| ZeroDivisionError
| SyntaxError
| InvalidIndexError
| ServiceFault.

#[global] Instance exn_eq_dec : EqDecision exn.
Proof. solve_decision. Defined.

Inductive result (A : Type) : Type :=
| OK (a : A)
| Raise (e : exn)
| Abort.

Arguments OK {A} a.
Arguments Raise {A} e.
Arguments Abort {A}.

#[global] Instance result_eq_dec {A} `{EqDecision A} : EqDecision (result A).
Proof. solve_decision. Defined.

#[global] Instance result_ret : MRet result := fun _ a => OK a.

#[global] Instance result_bind : MBind result :=
  fun _ _ f m => match m with OK a => f a | Raise e => Raise e | Abort => Abort end.

(** [for x in xs: acc = f(acc, x)] with a body that may raise. *)
Fixpoint foldM {A B} (f : B -> A -> result B) (acc : B) (xs : list A) : result B :=
  match xs with
  | [] => OK acc
  | x :: xs' => acc' ← f acc x; foldM f acc' xs'
  end.

(** A list comprehension whose element expression may raise. *)
Fixpoint mapM {A B} (f : A -> result B) (xs : list A) : result (list B) :=
  match xs with
  | [] => OK []
  | x :: xs' => y ← f x; ys ← mapM f xs'; OK (y :: ys)
  end.

(** ** Floating point *)

(** [n / d] rounded to the nearest integer, ties to even ([0 <= n],
    [0 < d]). *)
Definition round_half_even (n d : Z) : Z :=
  let fl := n / d in
  match 2 * (n mod d) ?= d with
  | Lt => fl
  | Gt => fl + 1
  | Eq => if Z.even fl then fl else fl + 1
  end.

(** The double nearest to [q] (IEEE 754 binary64: 53 bits, exponents from
    -1022 to 1023, subnormals below), ties to even; [None] when the
    rounded magnitude is beyond the largest double. *)
Definition round_double (q : Q) : option Q :=
  let n := Z.abs (Qnum q) in
  let d := Zpos (Qden q) in
  if (n =? 0)%Z then Some 0%Q
  else
    let e0 := Z.log2 n - Z.log2 d in
    let e := if (if (0 <=? e0)%Z then (d * 2 ^ e0 <=? n)%Z else (d <=? n * 2 ^ (- e0))%Z)
             then e0 else e0 - 1 in
    let u := Z.max e (-1022) - 52 in
    let r := if (0 <=? u)%Z then round_half_even n (d * 2 ^ u)
             else round_half_even (n * 2 ^ (- u)) d in
    let signed := if (Qnum q <? 0)%Z then - r else r in
    if (0 <=? u)%Z then
      if (2 ^ 1024 <=? r * 2 ^ u)%Z then None else Some (inject_Z (signed * 2 ^ u))
    else Some (Qred (signed # Z.to_pos (2 ^ (- u)))).

(** A float from a rational that is not beyond the doubles in magnitude;
    an infinity otherwise. *)
Definition fl (q : Q) : value :=
  match round_double q with
  | Some r => VFloat r
  | None => VInf (Qnum q <? 0)%Z
  end.

(** [float(z)] for an integer: an integer too large for a double raises
    OverflowError. *)
Definition float_of_int (z : Z) : result value :=
  match round_double (inject_Z z) with
  | Some r => OK (VFloat r)
  | None => Raise OverflowError
  end.

(** ** The operators of Python the sources apply to cells *)

(** The finite number a value counts as in a comparison or a division
    ([bool] is a subclass of [int]). *)
Definition num_of (v : value) : option Q :=
  match v with
  | VBool b => Some (if b then 1%Q else 0%Q)
  | VInt z => Some (inject_Z z)
  | VFloat q => Some q
  | _ => None
  end.

(** [a == b]: numbers compare by value across [bool], [int] and [float];
    NaN equals nothing; an infinity equals itself; text equals text,
    [None] equals [None]. *)
Definition py_eq (a b : value) : bool :=
  match num_of a, num_of b with
  | Some x, Some y => Qeq_bool x y
  | None, None =>
      match a, b with
      | VNone, VNone => true
      | VStr s, VStr t => String.eqb s t
      | VInf m, VInf n => Bool.eqb m n
      | _, _ => false
      end
  | _, _ => false
  end.

(** [isinstance(v, (int, float))]. *)
Definition is_number (v : value) : bool :=
  match v with
  | VNaN | VInf _ => true
  | _ => bool_decide (is_Some (num_of v))
  end.

Definition is_int (v : value) : bool :=
  match v with VBool _ | VInt _ => true | _ => false end.

(** [a > b] for two numbers of which one is NaN or an infinity. *)
Definition gt_special (a b : value) : bool :=
  match a, b with
  | VNaN, _ | _, VNaN => false
  | VInf false, VInf false => false
  | VInf false, _ => true
  | VInf true, _ => false
  | _, VInf true => true
  | _, _ => false
  end.

(** [a > b]. *)
Definition py_gt (a b : value) : result bool :=
  match num_of a, num_of b with
  | Some x, Some y => OK (negb (Qle_bool x y))
  | _, _ =>
      if is_number a && is_number b then OK (gt_special a b)
      else match a, b with
           | VStr s, VStr t => OK (String.ltb t s)
           | _, _ => Raise TypeError
           end
  end.

(** [float(v)] as the arithmetic of floats converts an operand. *)
Definition to_float (v : value) : result value :=
  match v with
  | VBool b => OK (VFloat (if b then 1 else 0))
  | VInt z => float_of_int z
  | VFloat _ | VNaN | VInf _ => OK v
  | _ => Raise TypeError
  end.

(** The quotient of two floats. *)
Definition float_div (x y : value) : result value :=
  match y with
  | VFloat qy =>
      if Qeq_bool qy 0 then Raise ZeroDivisionError
      else match x with
           | VFloat qx => OK (fl (qx / qy))
           | VInf m => OK (VInf (xorb m (Qnum qy <? 0)%Z))
           | _ => OK VNaN
           end
  | VInf _ =>
      match x with
      | VFloat _ => OK (VFloat 0)
      | _ => OK VNaN
      end
  | _ => OK VNaN
  end.

(** [a / b], true division.  Two integers give the double nearest to the
    quotient, or an OverflowError; with a float among them both operands
    are converted first (an integer too large raises OverflowError) and
    divided as floats. *)
Definition py_truediv (a b : value) : result value :=
  if is_int a && is_int b then
    match num_of a, num_of b with
    | Some x, Some y =>
        if Qeq_bool y 0 then Raise ZeroDivisionError
        else match round_double (x / y) with
             | Some r => OK (VFloat r)
             | None => Raise OverflowError
             end
    | _, _ => Raise TypeError
    end
  else if is_number a && is_number b then
    x ← to_float a; y ← to_float b; float_div x y
  else Raise TypeError.

(** The product and the sum of two floats. *)
Definition float_mul (x y : value) : value :=
  match x, y with
  | VFloat qx, VFloat qy => fl (qx * qy)
  | VInf m, VInf n => VInf (xorb m n)
  | VInf m, VFloat q | VFloat q, VInf m =>
      if Qeq_bool q 0 then VNaN else VInf (xorb m (Qnum q <? 0)%Z)
  | _, _ => VNaN
  end.

Definition float_add (x y : value) : value :=
  match x, y with
  | VFloat qx, VFloat qy => fl (qx + qy)
  | VInf m, VInf n => if Bool.eqb m n then VInf m else VNaN
  | VInf m, VFloat _ | VFloat _, VInf m => VInf m
  | _, _ => VNaN
  end.

(** [a * b] and [a + b] on numbers. *)
Definition py_mul (a b : value) : result value :=
  if is_int a && is_int b then
    match num_of a, num_of b with
    | Some x, Some y => OK (VInt (Qnum (Qred (x * y))))
    | _, _ => Raise TypeError
    end
  else if is_number a && is_number b then
    x ← to_float a; y ← to_float b; OK (float_mul x y)
  else Raise TypeError.

Definition py_add (a b : value) : result value :=
  if is_int a && is_int b then
    match num_of a, num_of b with
    | Some x, Some y => OK (VInt (Qnum (Qred (x + y))))
    | _, _ => Raise TypeError
    end
  else if is_number a && is_number b then
    x ← to_float a; y ← to_float b; OK (float_add x y)
  else Raise TypeError.

(** [pd.isna(v)]. *)
Definition isna (v : value) : bool :=
  match v with VNone | VNaN => true | _ => false end.

(** *** [int(v)] *)

Definition is_space (c : ascii) : bool :=
  let n := nat_of_ascii c in
  ((9 <=? n)%nat && (n <=? 13)%nat) || (n =? 32)%nat.

Definition digit_of (c : ascii) : option Z :=
  let n := nat_of_ascii c in
  if ((48 <=? n)%nat && (n <=? 57)%nat) then Some (Z.of_nat n - 48) else None.

Fixpoint lstrip (l : list ascii) : list ascii :=
  match l with
  | c :: r => if is_space c then lstrip r else l
  | [] => []
  end.

Definition strip (l : list ascii) : list ascii :=
  rev (lstrip (rev (lstrip l))).

(** Decimal digits with single underscores between digits; [prev] tells
    whether the previous character was a digit, [n] counts the digits. *)
Fixpoint digits_go (l : list ascii) (acc : Z) (prev : bool) (n : nat) : option (Z * nat) :=
  match l with
  | [] => if prev then Some (acc, n) else None
  | c :: r =>
      match digit_of c with
      | Some d => digits_go r (10 * acc + d) true (S n)
      | None =>
          if bool_decide (c = "_"%char) && prev then digits_go r acc false n
          else None
      end
  end.

(** CPython refuses a decimal literal of more than 4300 digits. *)
Definition int_max_str_digits : nat := 4300.

Definition parse_unsigned (l : list ascii) : option Z :=
  match digits_go l 0 false 0 with
  | Some (z, n) => if (n <=? int_max_str_digits)%nat then Some z else None
  | None => None
  end.

(** Text is held as its UTF-8 bytes; [int] reads code points. *)
Definition continuation (c : ascii) : option Z :=
  let n := Z.of_nat (nat_of_ascii c) in
  if ((128 <=? n) && (n <? 192))%Z then Some (n - 128) else None.

Fixpoint utf8_decode (l : list ascii) : option (list Z) :=
  match l with
  | [] => Some []
  | b0 :: r =>
      let n0 := Z.of_nat (nat_of_ascii b0) in
      if (n0 <? 128)%Z then cons n0 <$> utf8_decode r
      else
        match r with
        | b1 :: r1 =>
            match continuation b1 with
            | None => None
            | Some n1 =>
                if ((192 <=? n0) && (n0 <? 224))%Z
                then cons ((n0 - 192) * 64 + n1) <$> utf8_decode r1
                else
                  match r1 with
                  | b2 :: r2 =>
                      match continuation b2 with
                      | None => None
                      | Some n2 =>
                          if ((224 <=? n0) && (n0 <? 240))%Z
                          then cons ((n0 - 224) * 4096 + n1 * 64 + n2) <$> utf8_decode r2
                          else
                            match r2 with
                            | b3 :: r3 =>
                                match continuation b3 with
                                | None => None
                                | Some n3 =>
                                    if ((240 <=? n0) && (n0 <? 248))%Z
                                    then cons ((n0 - 240) * 262144 + n1 * 4096 + n2 * 64 + n3)
                                           <$> utf8_decode r3
                                    else None
                                end
                            | [] => None
                            end
                      end
                  | [] => None
                  end
            end
        | [] => None
        end
  end.

(** The blanks of Unicode beyond ASCII. *)
Definition unicode_space (cp : Z) : bool :=
  bool_decide (cp ∈ [133; 160; 5760; 8232; 8233; 8239; 8287; 12288])
  || ((8192 <=? cp) && (cp <=? 8202))%Z.

(** The code points of the digit zero of the decimal digits of Unicode
    (general category Nd, Unicode 15); the other nine follow each. *)
Definition decimal_zeros : list Z :=
  [ 48; 1632; 1776; 1984; 2406; 2534; 2662; 2790; 2918; 3046; 3174; 3302; 3430; 3558;
    3664; 3792; 3872; 4160; 4240; 6112; 6160; 6470; 6608; 6784; 6800; 6992; 7088; 7232;
    7248; 42528; 43216; 43264; 43472; 43504; 43600; 44016; 65296; 66720; 68912; 69734;
    69872; 69942; 70096; 70384; 70736; 70864; 71248; 71360; 71472; 71904; 72016; 72784;
    73040; 73120; 73552; 92768; 92864; 93008; 120782; 120792; 120802; 120812; 120822;
    123200; 123632; 124144; 125264; 130032 ].

Definition unicode_decimal (cp : Z) : option Z :=
  (λ z0, cp - z0) <$> List.find (λ z0, (z0 <=? cp) && (cp <? z0 + 10))%Z decimal_zeros.

(** What [int] makes of a code point before it parses: ASCII is kept, a
    blank becomes a space, a decimal digit its ASCII digit; anything else
    ends the conversion. *)
Definition to_ascii (cp : Z) : option ascii :=
  if (cp <? 127)%Z then Some (ascii_of_nat (Z.to_nat cp))
  else if unicode_space cp then Some " "%char
  else (λ d, ascii_of_nat (Z.to_nat (48 + d))) <$> unicode_decimal cp.

Definition transform_decimal_and_space (l : list Z) : option (list ascii) :=
  foldr (λ cp acc, match to_ascii cp, acc with
                   | Some c, Some r => Some (c :: r)
                   | _, _ => None
                   end) (Some []) l.

(** [int(s)] for text: blanks stripped, an optional sign, base ten. *)
Definition int_of_str (s : string) : option Z :=
  match utf8_decode (list_ascii_of_string s) ≫= transform_decimal_and_space with
  | Some l =>
      match strip l with
      | c :: r =>
          if bool_decide (c = "-"%char) then Z.opp <$> parse_unsigned r
          else if bool_decide (c = "+"%char) then parse_unsigned r
          else parse_unsigned (c :: r)
      | [] => None
      end
  | None => None
  end.

Definition py_int (v : value) : result Z :=
  match v with
  | VInt z => OK z
  | VBool b => OK (if b then 1 else 0)
  | VFloat q => OK (Qnum q ÷ Zpos (Qden q))
  | VNaN => Raise ValueError
  | VInf _ => Raise OverflowError
  | VNone => Raise TypeError
  | VStr s =>
      match int_of_str s with
      | Some z => OK z
      | None => Raise ValueError
      end
  end.

(** [str(n)] for an integer. *)
Definition str_of_int (z : Z) : string :=
  NilZero.string_of_int (Z.to_int z).

(** [s.lower()] on the ASCII letters; other bytes are kept. *)
Definition lower_ascii (c : ascii) : ascii :=
  let n := nat_of_ascii c in
  if ((65 <=? n)%nat && (n <=? 90)%nat) then ascii_of_nat (n + 32) else c.

Fixpoint lower (s : string) : string :=
  match s with
  | EmptyString => EmptyString
  | String c r => String (lower_ascii c) (lower r)
  end.

(** [sep.join(parts)]. *)
Fixpoint join (sep : string) (parts : list string) : string :=
  match parts with
  | [] => EmptyString
  | [p] => p
  | p :: ps => p +:+ sep +:+ join sep ps
  end.

(** The line feed between the lines of a multi-line literal. *)
Definition nl : string := String (ascii_of_nat 10) EmptyString.

(** [needle in s] for text. *)
Fixpoint contains (needle s : string) : bool :=
  String.prefix needle s ||
  match s with
  | EmptyString => false
  | String _ r => contains needle r
  end.

(** ** Data frames and ordered dictionaries *)

(** A pandas DataFrame: the column labels and the rows, every row as wide
    as the header.  Selecting a column by label ([df[label]]) is modelled
    for a label that heads one column, where pandas hands back a Series. *)
Record DataFrame : Type := mkDataFrame {
  columns : list value;
  rows : list (list value)
}.

(** [df.empty]: no row or no column. *)
Definition df_empty (df : DataFrame) : bool :=
  match columns df, rows df with
  | [], _ | _, [] => true
  | _, _ => false
  end.

(** The position of the column [label]; a missing label is a KeyError. *)
Definition col_pos (label : value) (cols : list value) : result nat :=
  match list_find (λ c, c = label) cols with
  | Some (j, _) => OK j
  | None => Raise KeyError
  end.

(** The cell of a row under the column at position [j]. *)
Definition cell (j : nat) (row : list value) : value :=
  default VNone (row !! j).

(** [s.isin(labels)]. *)
Definition isin (v : value) (labels : list value) : bool :=
  existsb (py_eq v) labels.

(** A dict in insertion order: [d[k] = v] keeps the place of a key that
    is already there. *)
Fixpoint dict_set {V} (k : value) (v : V) (d : list (value * V)) : list (value * V) :=
  match d with
  | [] => [(k, v)]
  | (k', v') :: r =>
      if decide (k' = k) then (k, v) :: r else (k', v') :: dict_set k v r
  end.

Fixpoint dict_get {V} (k : value) (d : list (value * V)) : option V :=
  match d with
  | [] => None
  | (k', v') :: r => if decide (k' = k) then Some v' else dict_get k r
  end.

Definition dict_keys {V} (d : list (value * V)) : list value := map fst d.

(** ** MetricsConfigUtils (src/utils/metrics_config.py) *)

Module MetricsConfigUtils.

(** The test the sources apply to a cell of the active column:
    [(c == True) | (c == 'TRUE') | (c == 'True')]. *)
Definition is_active (v : value) : bool :=
  py_eq v (VBool true) || py_eq v (VStr "TRUE") || py_eq v (VStr "True").

Definition excluded_fields : list value :=
  [VStr "campaign_status"; VStr "period_days"; VStr "limit"].

(** [col.lower()] on a column label. *)
Definition label_lower (c : value) : result string :=
  match c with
  | VStr s => OK (lower s)
  | _ => Raise AttributeError
  end.

(** [for col in columns: if col.lower() == name: found = col; break]. *)
Fixpoint find_column_first (name : string) (cols : list value) : result (option value) :=
  match cols with
  | [] => OK None
  | c :: r =>
      l ← label_lower c;
      if String.eqb l name then OK (Some c) else find_column_first name r
  end.

(** The loop of [get_calculated_metrics], which has no [break]: the last
    column that matches wins. *)
Definition find_columns_last (cols : list value) : result (option value * option value) :=
  foldM (λ (acc : option value * option value) col,
           l ← label_lower col;
           if String.eqb l "active" then OK (Some col, acc.2)
           else if String.eqb l "calc" then OK (acc.1, Some col)
           else OK acc)
        (None, None) cols.

(** [calc.notna() & (calc != '')]. *)
Definition has_formula (v : value) : bool :=
  negb (isna v) && negb (py_eq v (VStr EmptyString)).

(** [calc.isna() | (calc == '')]. *)
Definition no_formula (v : value) : bool :=
  isna v || py_eq v (VStr EmptyString).

(** [get_active_metrics]: the columns 'active' and 'metrics' by their exact
    names, derived metrics not excluded. *)
Definition get_active_metrics (df : DataFrame) : result (list value) :=
  a ← col_pos (VStr "active") (columns df);
  let active_metrics := List.filter (λ r, is_active (cell a r)) (rows df) in
  m ← col_pos (VStr "metrics") (columns df);
  OK (map (cell m)
        (List.filter (λ r, negb (isin (cell m r) excluded_fields)) active_metrics)).

Record query_parameters : Type := mkParams {
  campaign_status : value;
  period_days : Z;
  limit : Z
}.

(** One turn of the loop over the three parameter names: the first active
    row of that name, when it has a parameter cell that is not missing. *)
Definition active_parameter (df : DataFrame) (a m : nat) (param : string) : result (option value) :=
  let active_params := List.filter (λ r, is_active (cell a r)) (rows df) in
  match List.filter (λ r, py_eq (cell m r) (VStr param)) active_params with
  | [] => OK None
  | r :: _ =>
      p ← col_pos (VStr "parameter") (columns df);
      if isna (cell p r) then OK None else OK (Some (cell p r))
  end.

(** [get_query_parameters]: [int(...)] is applied with no guard. *)
Definition get_query_parameters (df : DataFrame) : result query_parameters :=
  a ← col_pos (VStr "active") (columns df);
  m ← col_pos (VStr "metrics") (columns df);
  status ← active_parameter df a m "campaign_status";
  days ← (v ← active_parameter df a m "period_days";
          match v with Some x => z ← py_int x; OK (Some z) | None => OK None end);
  lim ← (v ← active_parameter df a m "limit";
         match v with Some x => z ← py_int x; OK (Some z) | None => OK None end);
  OK {| campaign_status := default (VStr "ENABLED") status;
        period_days := default 30 days;
        limit := default 100 lim |}.

(** [get_active_metrics_list]: the fields to request from the service. *)
Definition get_active_metrics_list (df : DataFrame) : result (list value) :=
  active_column ← find_column_first "active" (columns df);
  active_metrics ←
    match active_column with
    | None => OK (rows df)
    | Some c =>
        a ← col_pos c (columns df);
        OK (List.filter (λ r, is_active (cell a r)) (rows df))
    end;
  calc_column ← find_column_first "calc" (columns df);
  m ← col_pos (VStr "metrics") (columns df);
  match calc_column with
  | Some c =>
      k ← col_pos c (columns df);
      OK (map (cell m)
            (List.filter
               (λ r, negb (isin (cell m r) excluded_fields) && no_formula (cell k r))
               active_metrics))
  | None =>
      OK (map (cell m)
            (List.filter (λ r, negb (isin (cell m r) excluded_fields)) active_metrics))
  end.

Record calc_info : Type := mkCalc {
  name : value;
  calc : value
}.

(** [row[label]] on a row of the frame. *)
Definition row_get (df : DataFrame) (row : list value) (label : value) : result value :=
  j ← col_pos label (columns df); OK (cell j row).

(** [get_calculated_metrics]: the derived metrics, keyed by metric. *)
Definition get_calculated_metrics (df : DataFrame) : result (list (value * calc_info)) :=
  found ← find_columns_last (columns df);
  match found.2 with
  | None => OK []
  | Some calc_column =>
      k ← col_pos calc_column (columns df);
      calc_metrics ←
        match found.1 with
        | Some active_column =>
            a ← col_pos active_column (columns df);
            OK (List.filter (λ r, is_active (cell a r) && has_formula (cell k r)) (rows df))
        | None => OK (List.filter (λ r, has_formula (cell k r)) (rows df))
        end;
      foldM (λ d row,
               key ← row_get df row (VStr "metrics");
               nm ← row_get df row (VStr "name");
               OK (dict_set key {| name := nm; calc := cell k row |} d))
            [] calc_metrics
  end.

(** [get_period_days]: only a ValueError of [int] falls back to 30. *)
Definition get_period_days (df : DataFrame) : result Z :=
  m ← col_pos (VStr "metrics") (columns df);
  match List.filter (λ r, py_eq (cell m r) (VStr "period_days")) (rows df) with
  | r :: _ =>
      p ← col_pos (VStr "parameter") (columns df);
      match py_int (cell p r) with
      | OK z => OK z
      | Raise ValueError => OK 30
      | other => other
      end
  | [] => OK 30
  end.

(** [get_limit]: only a ValueError of [int] falls back to 100. *)
Definition get_limit (df : DataFrame) : result Z :=
  m ← col_pos (VStr "metrics") (columns df);
  match List.filter (λ r, py_eq (cell m r) (VStr "limit")) (rows df) with
  | r :: _ =>
      p ← col_pos (VStr "parameter") (columns df);
      match py_int (cell p r) with
      | OK z => OK z
      | Raise ValueError => OK 100
      | other => other
      end
  | [] => OK 100
  end.

(** [str(v)] as an f-string renders a cell; [repr_float] stands for the
    shortest decimal that reads back as the double, which the rational
    view of floats does not fix. *)
Definition py_str (repr_float : Q -> string) (v : value) : string :=
  match v with
  | VNone => "None"
  | VNaN => "nan"
  | VBool b => if b then "True" else "False"
  | VInt z => str_of_int z
  | VFloat q => repr_float q
  | VStr s => s
  | VInf negative => if negative then "-inf" else "inf"
  end.

Definition dimensions : list string :=
  ["campaign.id"; "campaign.name"; "campaign.status";
   "campaign.advertising_channel_type"].

(** The text of the f-string of [build_query], line by line.  The date
    placeholders are doubled braces in the source: they stay in the text
    as [{start_date}] and [{end_date}]. *)
Definition build_query_text (dimensions_str metrics_str status limit_str : string) : string :=
  join nl
    [ EmptyString;
      "            SELECT";
      "                " +:+ dimensions_str +:+ ",";
      "                " +:+ metrics_str;
      "            FROM campaign";
      "            WHERE ";
      "                segments.date BETWEEN '{start_date}' AND '{end_date}'";
      "                AND campaign.status = '" +:+ status +:+ "'";
      "                AND metrics.impressions > 0";
      "            ORDER BY metrics.impressions DESC";
      "            LIMIT " +:+ limit_str;
      "        " ].

(** [build_query]: the query text and the parameters. *)
Definition build_query (repr_float : Q -> string) (df : DataFrame)
  : result (string * query_parameters) :=
  metrics_list ← get_active_metrics df;
  params ← get_query_parameters df;
  let metrics_str :=
    join ", " (map (λ metric, "metrics." +:+ py_str repr_float metric) metrics_list) in
  let dimensions_str := join ", " dimensions in
  OK (build_query_text dimensions_str metrics_str
        (py_str repr_float (campaign_status params)) (str_of_int (limit params)),
      params).

End MetricsConfigUtils.

(** ** Calendar dates ([datetime.date]) *)

(** A date is its proleptic Gregorian ordinal, 0001-01-01 being day 1. *)
Definition max_ordinal : Z := 3652059.

(** [today - datetime.timedelta(days=n)]. *)
Definition date_sub (today n : Z) : result Z :=
  if (999999999 <? Z.abs n)%Z then Raise OverflowError
  else if ((1 <=? today - n) && (today - n <=? max_ordinal))%Z then OK (today - n)
  else Raise OverflowError.

Definition days_before_month (month : Z) : Z :=
  nth (Z.to_nat month) [0; 0; 31; 59; 90; 120; 151; 181; 212; 243; 273; 304; 334] 0.

Definition days_in_month (month : Z) : Z :=
  nth (Z.to_nat month) [0; 31; 28; 31; 30; 31; 30; 31; 31; 30; 31; 30; 31] 0.

(** Year, month and day of an ordinal, as [datetime] computes them. *)
Definition ord2ymd (ordinal : Z) : Z * Z * Z :=
  let n := ordinal - 1 in
  let n400 := n / 146097 in
  let n := n mod 146097 in
  let n100 := n / 36524 in
  let n := n mod 36524 in
  let n4 := n / 1461 in
  let n := n mod 1461 in
  let n1 := n / 365 in
  let n := n mod 365 in
  let year := n400 * 400 + 1 + n100 * 100 + n4 * 4 + n1 in
  if ((n1 =? 4) || (n100 =? 4))%Z then (year - 1, 12, 31)
  else
    let leapyear := ((n1 =? 3) && (negb (n4 =? 24) || (n100 =? 3)))%Z in
    let month := Z.shiftr (n + 50) 5 in
    let preceding :=
      days_before_month month + (if (2 <? month)%Z && leapyear then 1 else 0) in
    if (n <? preceding)%Z then
      let month := month - 1 in
      let preceding :=
        preceding - (days_in_month month + (if (month =? 2)%Z && leapyear then 1 else 0)) in
      (year, month, n - preceding + 1)
    else (year, month, n - preceding + 1).

Definition pad (width : nat) (z : Z) : string :=
  let s := str_of_int z in
  String.concat EmptyString (replicate (width - String.length s) "0") +:+ s.

(** [d.strftime('%Y-%m-%d')], the ISO calendar form. *)
Definition strftime_ymd (ordinal : Z) : string :=
  let '(y, m, d) := ord2ymd ordinal in
  pad 4 y +:+ "-" +:+ pad 2 m +:+ "-" +:+ pad 2 d.

(** ** SpreadsheetUtils (src/utils/spreadsheet.py) and [pd.concat] *)

Module SpreadsheetUtils.

(** [pd.DataFrame(data, columns=headers)] on a list of lists: short rows
    are padded with [None]; a width other than the header's is refused. *)
Definition frame_of_lists (headers : list value) (data : list (list value)) : result DataFrame :=
  match data with
  | [] => OK {| columns := headers; rows := [] |}
  | _ =>
      let width := foldr (λ r w, Nat.max (length r) w) 0%nat data in
      if (width =? length headers)%nat then
        OK {| columns := headers;
              rows := map (λ r, r ++ replicate (width - length r) VNone) data |}
      else Raise ValueError
  end.

(** The body of [read_as_dataframe] (with [header=True]) after the range
    was read. *)
Definition frame_of_values (values : list (list value)) : result DataFrame :=
  match values with
  | [] => OK {| columns := []; rows := [] |}
  | headers :: data => frame_of_lists headers data
  end.

(** The rectangle [write_dataframe] hands to [write_range]
    (with [include_header=True]): the labels, then [row.tolist()] for
    the rows of [iterrows].  The frames of this program have a column of
    text, so that a row is a Series of objects and its list holds the
    cells as the frame stores them. *)
Definition frame_values (df : DataFrame) : list (list value) :=
  columns df :: rows df.

Section Store.

(** The Tabular Store behind [read_range] and [write_range]: a state, a
    read that yields the rectangle at the destination or a fault, a write
    that yields the number of updated cells or a fault. *)
Context {store : Type}.
Variable read_range : store -> store * result (list (list value)).
Variable write_range : store -> list (list value) -> store * result Z.

Definition read_as_dataframe (st : store) : store * result DataFrame :=
  let '(st1, r) := read_range st in (st1, r ≫= frame_of_values).

Definition write_dataframe (st : store) (df : DataFrame) : store * result Z :=
  write_range st (frame_values df).

End Store.

End SpreadsheetUtils.

(** Labels in order of first appearance. *)
Fixpoint add_new (acc l : list value) : list value :=
  match l with
  | [] => acc
  | x :: r => if bool_decide (x ∈ acc) then add_new acc r else add_new (acc ++ [x]) r
  end.

Definition union_labels (a b : list value) : list value :=
  add_new (add_new [] a) b.

(** A row laid out under new labels: a label the frame lacks gets NaN. *)
Definition reindex_row (old_cols new_cols : list value) (row : list value) : list value :=
  map (λ c, match list_find (λ c', c' = c) old_cols with
            | Some (j, _) => cell j row
            | None => VNaN
            end) new_cols.

(** *** The dtype of a column

    What the inference of pandas ([lib.maybe_convert_objects]) has seen in
    a column of Python objects. *)
Record seen : Type := mkSeen {
  null_ : bool;
  nan_ : bool;
  bool_ : bool;
  float_ : bool;
  int_ : bool;
  uint_ : bool;
  sint_ : bool
}.

Definition nothing_seen : seen :=
  {| null_ := false; nan_ := false; bool_ := false; float_ := false; int_ := false;
     uint_ := false; sint_ := false |}.

Definition INT64_MIN : Z := - 2 ^ 63.
Definition INT64_MAX : Z := 2 ^ 63 - 1.
Definition UINT64_MAX : Z := 2 ^ 64 - 1.

(** The loop over the column: [None] when an element (text, or an integer
    out of the 64-bit ranges) makes it an object column at once; an
    integer is converted to a double as it is met, which an integer too
    large for one answers with an OverflowError; the range of an integer
    is looked at only as long as no [None] was met. *)
Fixpoint scan_objects (vals : list value) (s : seen) : result (option seen) :=
  match vals with
  | [] => OK (Some s)
  | v :: r =>
      match v with
      | VNone =>
          scan_objects r {| null_ := true; nan_ := nan_ s; bool_ := bool_ s;
                            float_ := float_ s; int_ := int_ s; uint_ := uint_ s;
                            sint_ := sint_ s |}
      | VNaN =>
          scan_objects r {| null_ := null_ s; nan_ := true; bool_ := bool_ s;
                            float_ := float_ s; int_ := int_ s; uint_ := uint_ s;
                            sint_ := sint_ s |}
      | VBool _ =>
          scan_objects r {| null_ := null_ s; nan_ := nan_ s; bool_ := true;
                            float_ := float_ s; int_ := int_ s; uint_ := uint_ s;
                            sint_ := sint_ s |}
      | VFloat _ | VInf _ =>
          scan_objects r {| null_ := null_ s; nan_ := nan_ s; bool_ := bool_ s;
                            float_ := true; int_ := int_ s; uint_ := uint_ s;
                            sint_ := sint_ s |}
      | VInt z =>
          _ ← float_of_int z;
          if null_ s then
            scan_objects r {| null_ := true; nan_ := nan_ s; bool_ := bool_ s;
                              float_ := float_ s; int_ := true; uint_ := uint_ s;
                              sint_ := sint_ s |}
          else
            let uint := uint_ s || ((INT64_MAX <? z) && (z <=? UINT64_MAX))%Z in
            let sint := sint_ s || ((INT64_MIN <=? z) && (z <? 0))%Z in
            if (uint && sint) || (UINT64_MAX <? z)%Z || (z <? INT64_MIN)%Z then OK None
            else
              scan_objects r {| null_ := false; nan_ := nan_ s; bool_ := bool_ s;
                                float_ := float_ s; int_ := true; uint_ := uint;
                                sint_ := sint |}
      | VStr _ => OK None
      end
  end.

(** The column becomes a column of floats: numbers alone, with a float, a
    NaN, or a [None] beside an integer among them. *)
Definition becomes_float (s : seen) : bool :=
  negb (bool_ s)
  && (if null_ s || nan_ s then float_ s || int_ s || nan_ s else float_ s).

(** The column is a column of 64-bit integers. *)
Definition is_int_column (s : seen) : bool :=
  int_ s && negb (bool_ s || null_ s || nan_ s || float_ s).

(** A cell of a column of floats. *)
Definition float_cell (v : value) : value :=
  match v with
  | VNone => VNaN
  | VInt z => match round_double (inject_Z z) with Some r => VFloat r | None => v end
  | _ => v
  end.

(** The cells of a column as pandas stores them. *)
Definition maybe_convert_objects (vals : list value) : result (list value) :=
  found ← scan_objects vals nothing_seen;
  match found with
  | Some s => if becomes_float s then OK (map float_cell vals) else OK vals
  | None => OK vals
  end.

(** The cells of a frame that holds a column of 64-bit integers there. *)
Definition int_column (vals : list value) : bool :=
  match scan_objects vals nothing_seen with
  | OK (Some s) => is_int_column s
  | _ => false
  end.

(** The inference applied to every column of a table of Python objects. *)
Definition convert_columns (df : DataFrame) : result DataFrame :=
  cols ← mapM (λ j, maybe_convert_objects (map (cell j) (rows df)))
            (seq 0 (length (columns df)));
  OK {| columns := columns df;
        rows := imap (λ i row, imap (λ j v, default v (cols !! j ≫= (.!! i))) row)
                  (rows df) |}.

(** A column of integers that has to hold a missing value becomes a
    column of floats; [upcast] tells which columns do.  In [concat] these
    are the columns of integers of the second frame under a label the
    first frame lacks. *)
Definition hold_na (upcast : list bool) (row : list value) : list value :=
  imap (λ j v, if default false (upcast !! j) then float_cell v else v) row.

(** [pd.concat([a, b], ignore_index=True)] for a first frame of object
    columns, as a frame read from the sheet is (the service returns the
    cells as text): equal headers stack the rows; otherwise the header
    is the union of the labels and every row is laid out under it, which
    pandas refuses for a frame with a repeated label.  A cell without a
    value is NaN; under a label the first frame lacks the column of the
    second has to hold NaN above its cells, which turns a column of
    integers into a column of floats. *)
Definition upcast_mask (a b : DataFrame) : list bool :=
  imap (λ j c, negb (bool_decide (c ∈ columns a)) && int_column (map (cell j) (rows b)))
       (columns b).

Definition concat (a b : DataFrame) : result DataFrame :=
  if decide (columns a = columns b) then
    OK {| columns := columns a; rows := rows a ++ rows b |}
  else if bool_decide (NoDup (columns a)) && bool_decide (NoDup (columns b)) then
    let u := union_labels (columns a) (columns b) in
    OK {| columns := u;
          rows := map (reindex_row (columns a) u) (rows a)
                  ++ map (λ row, reindex_row (columns b) u (hold_na (upcast_mask a b) row))
                       (rows b) |}
  else Raise InvalidIndexError.

(** The table [pd.DataFrame(records)] lays out from a list of dicts: the
    labels are the keys in order of first appearance, a key a record
    lacks is NaN. *)
Definition frame_of_records (records : list (list (value * value))) : DataFrame :=
  let cols := fold_left (λ acc r, add_new acc (dict_keys r)) records [] in
  {| columns := cols;
     rows := map (λ r, map (λ c, default VNaN (dict_get c r)) cols) records |}.

(** [pd.DataFrame(records)]: the table laid out, every column with the
    dtype pandas infers for it. *)
Definition data_frame (records : list (list (value * value))) : result DataFrame :=
  convert_columns (frame_of_records records).

(** [df[label] = v]: the column is replaced if it is there, added at the
    end otherwise. *)
Definition set_column (label v : value) (df : DataFrame) : DataFrame :=
  match list_find (λ c, c = label) (columns df) with
  | Some (j, _) => {| columns := columns df; rows := map (λ r, <[j := v]> r) (rows df) |}
  | None => {| columns := columns df ++ [label]; rows := map (λ r, r ++ [v]) (rows df) |}
  end.

(** ** GoogleAdsAPI (src/modules/google_ads.py) *)

Module GoogleAdsAPI.

Import MetricsConfigUtils.

(** A row of the service's response: the four campaign attributes (the
    two enums by their [.name]) and the attributes of [row.metrics]. *)
Record RawRow : Type := mkRawRow {
  campaign_id : value;
  campaign_name : value;
  status_name : string;
  channel_type_name : string;
  metrics : gmap string value
}.

Definition known_fields : list string :=
  ["impressions"; "clicks"; "cost_micros"; "conversions"; "ctr"; "average_cpc";
   "search_top_impression_share"].

(** [get_field_mapping]: a known metric gets its dotted path, any other
    key is passed through. *)
Definition get_field_mapping (metric : value) : value :=
  match metric with
  | VStr s => if bool_decide (s ∈ known_fields) then VStr ("metrics." +:+ s) else metric
  | _ => metric
  end.

(** The text of the f-string of [get_campaign_metrics], line by line. *)
Definition campaign_query (fields start_date_str end_date_str limit_str : string) : string :=
  join nl
    [ EmptyString;
      "            SELECT ";
      "                campaign.id, ";
      "                campaign.name, ";
      "                campaign.status, ";
      "                campaign.advertising_channel_type, ";
      "                " +:+ fields;
      "            FROM campaign ";
      "            WHERE ";
      "                campaign.status = 'ENABLED' ";
      "                AND segments.date >= '" +:+ start_date_str +:+ "' ";
      "                AND segments.date <= '" +:+ end_date_str +:+ "'";
      "            LIMIT " +:+ limit_str;
      "            " ].

(** An element of [', '.join(...)] has to be text. *)
Definition as_str (v : value) : result string :=
  match v with
  | VStr s => OK s
  | _ => Raise TypeError
  end.

(** The query the live path hands to the service, from the configuration
    and today's date. *)
Definition submitted_query (today : Z) (df : DataFrame) : result string :=
  active_metrics_list ← get_active_metrics_list df;
  _ ← get_calculated_metrics df;
  days_ago ← get_period_days df;
  start_date ← date_sub today days_ago;
  limit ← get_limit df;
  metrics_query_fields ← mapM as_str (map get_field_mapping active_metrics_list);
  OK (campaign_query (join ", " metrics_query_fields)
        (strftime_ymd start_date) (strftime_ymd today) (str_of_int limit)).

(** The display name of a metric: the 'name' cell of the first row of the
    configuration with that key, the key itself when there is none.  A
    Series compared with a missing value matches nothing; compared with
    a literal that is not missing, [series_eq] is [py_eq]. *)
Definition series_eq (elem v : value) : bool :=
  negb (isna elem) && negb (isna v) && py_eq elem v.

Definition display_name (df : DataFrame) (metric : value) : result value :=
  m ← col_pos (VStr "metrics") (columns df);
  match List.filter (λ r, series_eq (cell m r) metric) (rows df) with
  | r :: _ => n ← col_pos (VStr "name") (columns df); OK (cell n r)
  | [] => OK metric
  end.

(** [eval(calc_expr, {"__builtins__": {}}, variables)]: the formula is
    evaluated in the scope of the row's variables, which an assignment
    expression in it can rebind; it gives the scope it leaves behind and
    its value, the exception it raises, or it does not come back. *)
Definition evaluator : Type :=
  value -> list (value * value) -> list (value * value) * result value.

Section Shaping.

Variable py_eval : evaluator.

(** The body of the [try] of a derived metric: the scope it leaves and
    how it ends. *)
Definition calc_result (metric calc_expr : value) (variables : list (value * value))
  : list (value * value) * result value :=
  match py_eq metric (VStr "conversion_rate"),
        dict_get (VStr "conversions") variables,
        dict_get (VStr "clicks") variables with
  | true, Some conversions, Some clicks =>
      (variables,
       positive ← py_gt clicks (VInt 0);
       if positive : bool then py_truediv conversions clicks else OK (VInt 0))
  | _, _, _ => py_eval calc_expr variables
  end.

(** One turn of the loop over the derived metrics, with its
    [try ... except Exception], on the scope and the record: a formula
    that raises an exception leaves [None] in its field. *)
Definition add_calculated
    (acc : list (value * value) * list (value * value)) (entry : value * calc_info)
  : result (list (value * value) * list (value * value)) :=
  let '(variables, r) := calc_result entry.1 (calc entry.2) acc.1 in
  match r with
  | OK v => OK (variables, dict_set (name entry.2) v acc.2)
  | Raise _ => OK (variables, dict_set (name entry.2) VNone acc.2)
  | Abort => Abort
  end.

(** One turn of the loop over the requested metrics of the live path. *)
Definition add_metric (df : DataFrame) (attrs : gmap string value)
    (acc : list (value * value) * list (value * value)) (metric : value)
  : result (list (value * value) * list (value * value)) :=
  metric_name ← display_name df metric;
  match metric with
  | VStr s =>
      match attrs !! s with
      | Some v =>
          v' ← (if py_eq metric (VStr "cost_micros")
                then py_truediv v (VInt 1000000) else OK v);
          OK (dict_set metric_name v' acc.1, dict_set metric v' acc.2)
      | None => OK acc
      end
  | _ => Raise TypeError
  end.

(** The body of the loop over the response: one record per row. *)
Definition shape_row (df : DataFrame) (active_metrics_list : list value)
    (calculated_metrics : list (value * calc_info)) (row : RawRow)
  : result (list (value * value)) :=
  let campaign_data :=
    [ (VStr "キャンペーンID", campaign_id row);
      (VStr "キャンペーン名", campaign_name row);
      (VStr "ステータス", VStr (status_name row));
      (VStr "キャンペーンタイプ", VStr (channel_type_name row)) ] in
  acc ← foldM (add_metric df (metrics row)) (campaign_data, []) active_metrics_list;
  done ← foldM add_calculated (acc.2, acc.1) calculated_metrics;
  OK done.2.

(** The Ads Query Service: client, service and [search] for a customer
    and a query give the rows or fail. *)
Variable search : string -> string -> result (list RawRow).

(** [get_campaign_metrics], for a customer id that is given: the
    configuration, the dates and the limit are read before the [try];
    anything that fails inside it gives [None]. *)
Definition get_campaign_metrics (today : Z) (client_customer_id : string) (df : DataFrame)
  : result (option (list (list (value * value)))) :=
  active_metrics_list ← get_active_metrics_list df;
  calculated_metrics ← get_calculated_metrics df;
  days_ago ← get_period_days df;
  start_date ← date_sub today days_ago;
  limit ← get_limit df;
  let attempt :=
    metrics_query_fields ← mapM as_str (map get_field_mapping active_metrics_list);
    let query := campaign_query (join ", " metrics_query_fields)
                   (strftime_ymd start_date) (strftime_ymd today) (str_of_int limit) in
    response ← search client_customer_id query;
    mapM (shape_row df active_metrics_list calculated_metrics) response in
  match attempt with
  | OK campaign_metrics => OK (Some campaign_metrics)
  | Raise _ => OK None
  | Abort => Abort
  end.

(** The dummy value of a metric for campaign [i]; a decimal literal is
    the double nearest to it. *)
Definition dummy_value (metric : value) (i : Z) : result value :=
  if py_eq metric (VStr "impressions") then OK (VInt (i * 1000 + i * 100))
  else if py_eq metric (VStr "clicks") then OK (VInt (i * 50 + i * 10))
  else if py_eq metric (VStr "cost_micros") then
    py_truediv (VInt (i * 5000 + i * 500)) (VInt 1000000)
  else if py_eq metric (VStr "conversions") then
    half ← py_mul (VInt i) (fl (5 # 10)); py_add (VInt (i * 2)) half
  else if py_eq metric (VStr "ctr") then
    part ← py_mul (VInt i) (fl (5 # 1000)); py_add (fl (5 # 100)) part
  else if py_eq metric (VStr "average_cpc") then OK (VInt (100 + i * 10))
  else if py_eq metric (VStr "search_top_impression_share") then
    part ← py_mul (VInt i) (fl (5 # 100)); py_add (fl (3 # 10)) part
  else OK (VInt (i * 10)).

(** One turn of the loop over the requested metrics of the dummy path. *)
Definition add_dummy_metric (df : DataFrame) (i : Z)
    (acc : list (value * value) * list (value * value)) (metric : value)
  : result (list (value * value) * list (value * value)) :=
  metric_name ← display_name df metric;
  v ← dummy_value metric i;
  OK (dict_set metric_name v acc.1, dict_set metric v acc.2).

(** The body of [for i in range(1, num_campaigns + 1)]. *)
Definition dummy_campaign (df : DataFrame) (active_metrics_list : list value)
    (calculated_metrics : list (value * calc_info)) (i : Z)
  : result (list (value * value)) :=
  let campaign :=
    [ (VStr "キャンペーンID", VStr ("10000" +:+ str_of_int i));
      (VStr "キャンペーン名", VStr ("テストキャンペーン " +:+ str_of_int i));
      (VStr "ステータス", VStr "ENABLED");
      (VStr "キャンペーンタイプ", VStr "SEARCH") ] in
  acc ← foldM (add_dummy_metric df i) (campaign, []) active_metrics_list;
  done ← foldM add_calculated (acc.2, acc.1) calculated_metrics;
  OK done.2.

Definition num_campaigns : Z := 10.

(** The summary lines are printed through f-strings.  [f"{v}"] writes an
    integer in decimal, which CPython refuses beyond its limit of digits;
    [f"{v:.2f}"] and [f"{v:.2%}"] convert an integer to a float first. *)
Definition format_plain (v : value) : result unit :=
  match v with
  | VInt z =>
      if (10 ^ Z.of_nat int_max_str_digits <=? Z.abs z)%Z then Raise ValueError else OK tt
  | _ => OK tt
  end.

Definition format_fixed (v : value) : result unit :=
  match v with
  | VInt z => _ ← float_of_int z; OK tt
  | _ => OK tt
  end.

(** [campaign[key]] in a summary line. *)
Definition format_field (campaign : list (value * value)) (key : value) : result unit :=
  match dict_get key campaign with
  | Some v => format_plain v
  | None => Raise KeyError
  end.

(** The lines of the summary for one record. *)
Definition print_summary (campaign : list (value * value)) : result unit :=
  _ ← format_field campaign (VStr "キャンペーン名");
  _ ← format_field campaign (VStr "キャンペーンID");
  _ ← format_field campaign (VStr "キャンペーンタイプ");
  foldM (λ _ item,
           if isin item.1 [VStr "キャンペーンID"; VStr "キャンペーン名";
                          VStr "キャンペーンタイプ"; VStr "ステータス"]
           then OK tt
           else if is_number item.2 then
             if isin item.1 [VStr "クリック率"; VStr "CVR"] then format_fixed item.2
             else if isin item.1 [VStr "費用"; VStr "平均クリック単価"]
                  then format_fixed item.2
                  else format_plain item.2
           else format_plain item.2)
        tt campaign.

(** [get_dummy_campaign_metrics]: the ten records, then the summary. *)
Definition get_dummy_campaign_metrics (df : DataFrame) : result (list (list (value * value))) :=
  active_metrics_list ← get_active_metrics_list df;
  calculated_metrics ← get_calculated_metrics df;
  campaign_metrics ← mapM (dummy_campaign df active_metrics_list calculated_metrics)
                       (seqZ 1 num_campaigns);
  _ ← mapM print_summary campaign_metrics;
  OK campaign_metrics.

End Shaping.

End GoogleAdsAPI.

(** ** main (src/main.py) *)

Module Main.

Import SpreadsheetUtils.

(** The lines step 3 prints, by their payload. *)
Inductive printed : Type :=
| ExistingRows (n : nat)
| CombinedRows (n : nat)
| CellsUpdated (n : Z)
| ReadFailed (e : exn).

Section Pipeline.

Context {store : Type}.
Variable read_range : store -> store * result (list (list value)).
Variable write_range : store -> list (list value) -> store * result Z.

(** [write_dataframe] followed by the line that reports the cells. *)
Definition write_and_report (st : store) (out : list printed) (df : DataFrame)
  : store * list printed * result unit :=
  let '(st', w) := write_dataframe write_range st df in
  match w with
  | OK n => (st', out ++ [CellsUpdated n], OK tt)
  | Raise e => (st', out, Raise e)
  | Abort => (st', out, Abort)
  end.

(** The body of the [try] of step 3: read the existing table, stack the
    new rows under it, write the result. *)
Definition merge_and_write (st : store) (df : DataFrame)
  : store * list printed * result unit :=
  let '(st1, r) := read_as_dataframe read_range st in
  match r with
  | Raise e => (st1, [], Raise e)
  | Abort => (st1, [], Abort)
  | OK existing_df =>
      if negb (df_empty existing_df) then
        let out := [ExistingRows (length (rows existing_df))] in
        match concat existing_df df with
        | Raise e => (st1, out, Raise e)
        | Abort => (st1, out, Abort)
        | OK combined_df =>
            write_and_report st1 (out ++ [CombinedRows (length (rows combined_df))])
              combined_df
        end
      else write_and_report st1 [] df
  end.

(** Step 3 with its [except Exception]: whatever exception the [try]
    raised, the new rows alone are written; a fault of this last write is
    not caught. *)
Definition persist (st : store) (df : DataFrame) : store * list printed * result unit :=
  match merge_and_write st df with
  | (st', out, Raise e) => write_and_report st' (out ++ [ReadFailed e]) df
  | done => done
  end.

Variable py_eval : GoogleAdsAPI.evaluator.
Variable search : string -> string -> result (list GoogleAdsAPI.RawRow).

(** How a run ends. *)
Inductive ending : Type :=
| Completed
| NoData
| Exit1 (e : exn)
| Aborted.

(** Step 2: the records as a frame, with the retrieval time. *)
Definition tabulate (now : string) (campaign_metrics : list (list (value * value)))
  : result DataFrame :=
  df ← data_frame campaign_metrics;
  OK (set_column (VStr "取得日時") (VStr now) df).

(** [main], steps 1 to 3: fetch (dummy data with [--test]), tabulate with
    the retrieval time, persist.  An exception that reaches the top ends
    the run with status 1. *)
Definition main (test : bool) (today : Z) (now : string) (client_customer_id : string)
    (config : DataFrame) (st : store) : store * list printed * ending :=
  let fetched :=
    if test then
      campaign_metrics ← GoogleAdsAPI.get_dummy_campaign_metrics py_eval config;
      OK (Some campaign_metrics)
    else GoogleAdsAPI.get_campaign_metrics py_eval search today client_customer_id config in
  match fetched with
  | Raise e => (st, [], Exit1 e)
  | Abort => (st, [], Aborted)
  | OK None | OK (Some []) => (st, [], NoData)
  | OK (Some campaign_metrics) =>
      match tabulate now campaign_metrics with
      | OK df =>
          match persist st df with
          | (st', out, OK _) => (st', out, Completed)
          | (st', out, Raise e) => (st', out, Exit1 e)
          | (st', out, Abort) => (st', out, Aborted)
          end
      | Raise e => (st, [], Exit1 e)
      | Abort => (st, [], Aborted)
      end
  end.

End Pipeline.

End Main.

(** ** A store and a formula evaluator to run the model on *)

(** A sheet in memory: [None] is a destination that cannot be read; a
    write replaces the cells it covers and leaves the others. *)
Definition overlay_row (new old : list value) : list value :=
  new ++ drop (length new) old.

Fixpoint overlay (new old : list (list value)) : list (list value) :=
  match new, old with
  | [], _ => old
  | n :: ns, [] => n :: ns
  | n :: ns, o :: os => overlay_row n o :: overlay ns os
  end.

Definition sheet_read (st : option (list (list value)))
  : option (list (list value)) * result (list (list value)) :=
  match st with
  | Some cells => (st, OK cells)
  | None => (st, Raise ServiceFault)
  end.

Definition sheet_write (st : option (list (list value))) (values : list (list value))
  : option (list (list value)) * result Z :=
  (Some (overlay values (default [] st)),
   OK (Z.of_nat (foldr (λ r n, length r + n)%nat 0%nat values))).

(** The same sheet behind a service that refuses a rectangle with a NaN
    in it (NaN has no JSON form) and leaves the cells as they were. *)
Definition strict_sheet_write (st : option (list (list value))) (values : list (list value))
  : option (list (list value)) * result Z :=
  if existsb (existsb (λ v, bool_decide (v = VNaN))) values
  then (st, Raise ServiceFault)
  else sheet_write st values.

(** An evaluator to run samples with.  On a formula [a / b] of two names
    it does what [eval] does: the quotient, a NameError for a name the
    scope lacks, the exception of the division.  Text of another shape is
    not evaluated and counts as a SyntaxError. *)
Fixpoint split_at (sep : string) (s : string) (fuel : nat) : option (string * string) :=
  match fuel with
  | O => None
  | S fuel' =>
      if String.prefix sep s then
        Some (EmptyString, String.substring (String.length sep) (String.length s) s)
      else match s with
           | EmptyString => None
           | String c r =>
               match split_at sep r fuel' with
               | Some (a, b) => Some (String c a, b)
               | None => None
               end
           end
  end.

Definition ratio_eval : GoogleAdsAPI.evaluator := λ expr variables,
  (variables,
   match expr with
   | VStr s =>
       match split_at " / " s (S (String.length s)) with
       | Some (a, b) =>
           match dict_get (VStr a) variables, dict_get (VStr b) variables with
           | Some x, Some y => py_truediv x y
           | _, _ => Raise NameError
           end
       | None => Raise SyntaxError
       end
   | _ => Raise TypeError
   end).

(** * Vocabulary of the statements and sample data *)

Import MetricsConfigUtils GoogleAdsAPI SpreadsheetUtils Main.

(** ** Vocabulary of the specification

    A configuration table read through its header: [names] are the text
    labels of the columns; a column is found by its name whatever the
    letter case. *)

Fixpoint find_pos (name : string) (names : list string) : option nat :=
  match names with
  | [] => None
  | s :: r => if String.eqb (lower s) name then Some 0%nat else S <$> find_pos name r
  end.

(** The row counts as active: its flag passes the test, or the table has
    no active column at all. *)
Definition row_active (names : list string) (row : list value) : bool :=
  match find_pos "active" names with
  | Some a => is_active (cell a row)
  | None => true
  end.

(** The formula cell of a row ([None] without a formula column). *)
Definition formula_cell (names : list string) (row : list value) : value :=
  match find_pos "calc" names with
  | Some k => cell k row
  | None => VNone
  end.

(** The definition in this row is a derived metric: it has a formula that
    is neither missing nor the empty text. *)
Definition has_nonempty_formula (names : list string) (row : list value) : bool :=
  has_formula (formula_cell names row).

(** The key of the row is one of the three reserved parameter keys. *)
Definition reserved (key : value) : bool := isin key excluded_fields.

(** The header is made of text labels that differ even when letter case
    is ignored. *)
Definition header_ok (df : DataFrame) (names : list string) : Prop :=
  columns df = map VStr names /\ NoDup (map lower names).

(** The column a loop has found so far, when the header has one. *)
Definition or_else (o acc : option value) : option value :=
  match o with Some _ => o | None => acc end.

(** Both loops over the requested metrics put a value, when the metric
    has one, under the display name in the record and under the key in
    the variables. *)
Definition put_metric (df : DataFrame) (val : value -> result (option value))
    (acc : list (value * value) * list (value * value)) (metric : value)
  : result (list (value * value) * list (value * value)) :=
  metric_name ← display_name df metric;
  o ← val metric;
  match o with
  | Some v => OK (dict_set metric_name v acc.1, dict_set metric v acc.2)
  | None => OK acc
  end.

(** The value the live path stores for a metric: the attribute of the
    row, cost in micros divided by a million. *)
Definition live_value (attrs : gmap string value) (metric : value) : result (option value) :=
  match metric with
  | VStr s =>
      match attrs !! s with
      | Some v =>
          v' ← (if py_eq metric (VStr "cost_micros")
                then py_truediv v (VInt 1000000) else OK v);
          OK (Some v')
      | None => OK None
      end
  | _ => Raise TypeError
  end.

(** The value the dummy path stores for a metric of campaign [i]. *)
Definition dummy_metric_value (i : Z) (metric : value) : result (option value) :=
  v ← dummy_value metric i; OK (Some v).

(** What a derived field holds after its formula ended with [r]. *)
Definition field_value (r : result value) : value :=
  match r with OK v => v | _ => VNone end.







(** A cell as the sheet service returns it: text. *)
Definition is_str (v : value) : bool :=
  match v with VStr _ => true | _ => false end.



(** The table [main] lays out from the records, with the retrieval time;
    [tabulate] is this table with the dtypes of its columns. *)
Definition new_frame (now : string) (records : list (list (value * value))) : DataFrame :=
  set_column (VStr "取得日時") (VStr now) (frame_of_records records).

(** ** Sample configurations *)

Definition sample_names : list string :=
  ["metrics"; "name"; "active"; "parameter"; "calc"].

(** Four requested metrics, two derived ones, an inactive row and the
    three parameter rows. *)
Definition sample_config : DataFrame :=
  {| columns := map VStr sample_names;
     rows :=
       [ [VStr "impressions"; VStr "インプレッション数"; VStr "TRUE"; VNone; VNone];
         [VStr "clicks"; VStr "クリック数"; VStr "TRUE"; VNone; VNone];
         [VStr "cost_micros"; VStr "費用"; VStr "TRUE"; VNone; VNone];
         [VStr "conversions"; VStr "コンバージョン数"; VStr "True"; VNone; VNone];
         [VStr "ctr"; VStr "クリック率"; VStr "FALSE"; VNone; VNone];
         [VStr "conversion_rate"; VStr "CVR"; VStr "TRUE"; VStr EmptyString;
          VStr "conversions / clicks"];
         [VStr "cost_per_click"; VStr "クリック単価"; VStr "TRUE"; VStr EmptyString;
          VStr "cost_micros / clicks"];
         [VStr "campaign_status"; VStr "ステータス"; VStr "TRUE"; VStr "PAUSED"; VNone];
         [VStr "period_days"; VStr "期間"; VStr "TRUE"; VStr "30"; VNone];
         [VStr "limit"; VStr "上限"; VStr "TRUE"; VStr "50"; VNone] ] |}.

(** The same table without its active column. *)
Definition flagless_names : list string := ["metrics"; "name"; "parameter"; "calc"].

Definition flagless_config : DataFrame :=
  {| columns := map VStr flagless_names;
     rows := map (λ r, take 2 r ++ drop 3 r) (rows sample_config) |}.

(** The active flags in lower case, and a limit that is not a number. *)
Definition careless_config : DataFrame :=
  {| columns := map VStr sample_names;
     rows :=
       [ [VStr "impressions"; VStr "インプレッション数"; VStr "true"; VNone; VNone];
         [VStr "clicks"; VStr "クリック数"; VStr "TRUE"; VNone; VNone];
         [VStr "limit"; VStr "上限"; VStr "TRUE"; VStr "abc"; VNone] ] |}.

(** A limit row whose parameter cell was left blank. *)
Definition blank_limit_config : DataFrame :=
  {| columns := map VStr sample_names;
     rows :=
       [ [VStr "impressions"; VStr "インプレッション数"; VStr "TRUE"; VNone; VNone];
         [VStr "limit"; VStr "上限"; VStr "TRUE"; VNone; VNone] ] |}.

(** A service row with conversions and no click, shaped with two derived
    metrics: the conversion rate is 0, the cost per click, a division by
    zero, is [None], and the cost of 5,000,000 micros is 5. *)
Definition sample_row : RawRow :=
  {| campaign_id := VInt 1234567;
     campaign_name := VStr "spring";
     status_name := "ENABLED";
     channel_type_name := "SEARCH";
     metrics := {[ "impressions" := VInt 1200; "clicks" := VInt 0;
                   "cost_micros" := VInt 5000000; "conversions" := VFloat 10 ]} |}.

Definition sample_active : list value :=
  [VStr "impressions"; VStr "clicks"; VStr "cost_micros"; VStr "conversions"].

Definition sample_derived : list (value * calc_info) :=
  [ (VStr "conversion_rate", {| name := VStr "CVR"; calc := VStr "conversions / clicks" |});
    (VStr "cost_per_click",
     {| name := VStr "クリック単価"; calc := VStr "cost_micros / clicks" |}) ].

Definition sample_record : list (value * value) :=
  [ (VStr "キャンペーンID", VInt 1234567);
    (VStr "キャンペーン名", VStr "spring");
    (VStr "ステータス", VStr "ENABLED");
    (VStr "キャンペーンタイプ", VStr "SEARCH");
    (VStr "インプレッション数", VInt 1200);
    (VStr "クリック数", VInt 0);
    (VStr "費用", VFloat 5);
    (VStr "コンバージョン数", VFloat 10);
    (VStr "CVR", VInt 0);
    (VStr "クリック単価", VNone) ].

(** A destination written by an earlier run, and a batch with one more
    column. *)
Definition earlier_sheet : list (list value) :=
  [ [VStr "キャンペーンID"; VStr "インプレッション数"; VStr "取得日時"];
    [VStr "100001"; VStr "1100"; VStr "2025-03-09 09:00:00"];
    [VStr "100002"; VStr "2200"; VStr "2025-03-09 09:00:00"] ].

(** The frame that destination reads back as. *)
Definition earlier_frame : DataFrame :=
  {| columns := [VStr "キャンペーンID"; VStr "インプレッション数"; VStr "取得日時"];
     rows := drop 1 earlier_sheet |}.

Definition same_labels_batch : DataFrame :=
  {| columns := [VStr "キャンペーンID"; VStr "インプレッション数"; VStr "取得日時"];
     rows := [ [VStr "100001"; VInt 1100; VStr "2025-03-10 09:00:00"] ] |}.

Definition wider_batch : DataFrame :=
  {| columns := [VStr "キャンペーンID"; VStr "インプレッション数"; VStr "クリック数";
                 VStr "取得日時"];
     rows := [ [VStr "100001"; VInt 1100; VInt 60; VStr "2025-03-10 09:00:00"] ] |}.

(** * The rest of the cited modules *)

(** [calculate_average_cpc] (src/utils/metrics_config.py): the quotient
    when there is a click, 0 otherwise, with a handler for a division by
    zero around both. *)
Definition calculate_average_cpc (cost_micros clicks : value) : result value :=
  match (positive ← py_gt clicks (VInt 0);
         if positive : bool then py_truediv cost_micros clicks else OK (VInt 0)) with
  | Raise ZeroDivisionError => OK (VInt 0)
  | r => r
  end.

Module MetricsConfigLoader.

Section Cache.

Context {store : Type}.
Variable read_range : store -> store * result (list (list value)).

(** [df.iloc[0]]: the first row, an IndexError on a frame without rows. *)
Definition iloc0 (df : DataFrame) : result (list value) :=
  match rows df with
  | r :: _ => OK r
  | [] => Raise IndexError
  end.

(** [MetricsConfigUtils.get_metrics_config], with the class attribute
    [_metrics_df_cache] as a state of its own: the cached frame when there
    is one; otherwise the sheet is read, its first row is printed, and
    the frame is cached.  The settings that name the sheet are taken to
    be there. *)
Definition get_metrics_config (cache : option DataFrame) (st : store)
  : option DataFrame * store * result DataFrame :=
  match cache with
  | Some metrics_df => (cache, st, OK metrics_df)
  | None =>
      let '(st1, r) := read_as_dataframe read_range st in
      match (metrics_df ← r; _ ← iloc0 metrics_df; OK metrics_df) with
      | OK metrics_df => (Some metrics_df, st1, OK metrics_df)
      | other => (None, st1, other)
      end
  end.

End Cache.

End MetricsConfigLoader.

Module SpreadsheetLookup.

(** An entry of the 'sheets' list of a spreadsheet resource: its
    'properties', when present, with 'title' and 'sheetId', when
    present. *)
Record sheet_properties : Type := mkSheetProperties {
  title : option string;
  sheetId : option Z
}.

(** The loop of [SpreadsheetUtils.get_sheet_id]: the 'sheetId' of the
    first sheet whose title is [sheet_name], [None] when there is none. *)
Fixpoint find_sheet_id (sheet_name : string) (sheets : list (option sheet_properties))
  : option Z :=
  match sheets with
  | [] => None
  | sheet :: rest =>
      if bool_decide ((sheet ≫= title) = Some sheet_name)
      then sheet ≫= sheetId
      else find_sheet_id sheet_name rest
  end.

(** [get_sheet_id] on what the service answered: a fault is raised
    again. *)
Definition get_sheet_id (spreadsheet : result (list (option sheet_properties)))
    (sheet_name : string) : result (option Z) :=
  sheets ← spreadsheet; OK (find_sheet_id sheet_name sheets).

End SpreadsheetLookup.

(** The rectangle [append_dataframe] hands to [append_values], and
    [write_dataframe] to [write_range], for either value of
    [include_header]. *)
Definition dataframe_values (include_header : bool) (df : DataFrame) : list (list value) :=
  (if include_header then [columns df] else []) ++ rows df.

(** The labels both paths open a record with. *)
Definition campaign_columns : list value :=
  [VStr "キャンペーンID"; VStr "キャンペーン名"; VStr "ステータス"; VStr "キャンペーンタイプ"].

(** ** More sample tables *)

(** The sample configuration with its flag column spelled 'Active'. *)
Definition cased_config : DataFrame :=
  {| columns := map VStr ["metrics"; "name"; "Active"; "parameter"; "calc"];
     rows := rows sample_config |}.

(** The sample configuration with the limit row switched off. *)
Definition inactive_limit_config : DataFrame :=
  {| columns := columns sample_config;
     rows := map (λ r, if py_eq (cell 0 r) (VStr "limit")
                       then <[2%nat := VStr "FALSE"]> r else r)
               (rows sample_config) |}.

(** The sample configuration with its three parameter rows switched off. *)
Definition switched_off_config : DataFrame :=
  {| columns := columns sample_config;
     rows := map (λ r, if reserved (cell 0 r) then <[2%nat := VStr "FALSE"]> r else r)
               (rows sample_config) |}.

(** Two active definitions of the same derived metric. *)
Definition twice_defined_config : DataFrame :=
  {| columns := map VStr sample_names;
     rows :=
       [ [VStr "clicks"; VStr "クリック数"; VStr "TRUE"; VNone; VNone];
         [VStr "cost_micros"; VStr "費用"; VStr "TRUE"; VNone; VNone];
         [VStr "cost_per_click"; VStr "クリック単価"; VStr "TRUE"; VStr EmptyString;
          VStr "cost_micros / clicks"];
         [VStr "cost_per_click"; VStr "CPC"; VStr "TRUE"; VStr EmptyString;
          VStr "clicks / cost_micros"] ] |}.

(** A lookback window that reaches before the first day of the calendar. *)
Definition far_window_config : DataFrame :=
  {| columns := map VStr sample_names;
     rows :=
       [ [VStr "impressions"; VStr "インプレッション数"; VStr "TRUE"; VNone; VNone];
         [VStr "period_days"; VStr "期間"; VStr "TRUE"; VStr "800000"; VNone] ] |}.


(** A destination whose header repeats a label. *)
Definition repeated_label_sheet : list (list value) :=
  [ [VStr "キャンペーンID"; VStr "メモ"; VStr "メモ"];
    [VStr "100001"; VStr "a"; VStr "b"] ].

(** * Statements *)

(** ** The primitives on samples *)

Example int_of_str_samples :
  int_of_str " 42 " = Some 42 /\ int_of_str "-7" = Some (-7) /\
  int_of_str "1_000" = Some 1000 /\ int_of_str "abc" = None /\
  int_of_str "3.5" = None /\ int_of_str EmptyString = None /\
  int_of_str "1__0" = None /\ int_of_str "キ" = None.
Proof. repeat split; reflexivity. Qed.

Example str_of_int_samples :
  str_of_int 100 = "100" /\ str_of_int 0 = "0" /\ str_of_int (-3) = "-3".
Proof. repeat split; reflexivity. Qed.

Example lower_samples : lower "AcTiVe" = "active" /\ lower "Calc" = "calc".
Proof. split; reflexivity. Qed.

Example strftime_samples :
  strftime_ymd 739320 = "2025-03-10" /\ strftime_ymd 739290 = "2025-02-08" /\
  strftime_ymd 738945 = "2024-02-29" /\ strftime_ymd 739251 = "2024-12-31" /\
  strftime_ymd 730120 = "2000-01-01" /\ strftime_ymd max_ordinal = "9999-12-31".
Proof. repeat split; reflexivity. Qed.

(** ** Doubles *)

Lemma round_half_even_ge (n d : Z) : (0 < d)%Z -> (n / d <= round_half_even n d)%Z.
Proof.
  intros Hd. unfold round_half_even.
  destruct (2 * (n mod d) ?= d)%Z; [destruct (Z.even (n / d))|..]; lia.
Qed.


(** Only the integer zero is converted to the float zero. *)
Lemma round_double_int_nonzero (z : Z) (r : Q) :
  round_double (inject_Z z) = Some r -> (r == 0)%Q -> z = 0%Z.
Proof.
  unfold round_double. cbn [Qnum Qden inject_Z].
  destruct (Z.eqb_spec (Z.abs z) 0) as [|Hz]; [lia|].
  set (n := Z.abs z) in *. assert (Hn : (0 < n)%Z) by lia.
  change (Z.log2 1) with 0%Z. rewrite Z.sub_0_r.
  pose proof (Z.log2_nonneg n) as He.
  destruct (Z.log2_spec n Hn) as [Hlow _].
  rewrite (proj2 (Z.leb_le 0 (Z.log2 n)) He).
  rewrite (Z.mul_1_l (2 ^ Z.log2 n)), (proj2 (Z.leb_le _ _) Hlow).
  rewrite Z.max_l by lia. set (u := (Z.log2 n - 52)%Z).
  destruct (Z.leb_spec 0 u) as [Hu|Hu].
  - set (r' := round_half_even n (2 ^ u)).
    assert (Hr : (0 < r')%Z).
    { assert (H2u : (0 < 2 ^ u)%Z) by (apply Z.pow_pos_nonneg; lia).
      pose proof (round_half_even_ge n (2 ^ u) H2u) as Hge.
      assert ((1 <= n / 2 ^ u)%Z); [|unfold r'; lia].
      apply Z.div_le_lower_bound; [lia|].
      assert ((2 ^ u <= 2 ^ Z.log2 n)%Z) by (apply Z.pow_le_mono_r; lia). lia. }
    rewrite !Z.mul_1_l. fold r'. destruct (2 ^ 1024 <=? r' * 2 ^ u)%Z; [discriminate|].
    intros [= <-] H0. unfold Qeq in H0. cbn [Qnum Qden inject_Z] in H0.
    assert (H2u : (0 < 2 ^ u)%Z) by (apply Z.pow_pos_nonneg; lia).
    destruct (z <? 0)%Z; nia.
  - set (r' := round_half_even (n * 2 ^ (- u)) 1).
    assert (Hr : (0 < r')%Z).
    { pose proof (round_half_even_ge (n * 2 ^ (- u)) 1 ltac:(lia)) as Hge.
      rewrite Z.div_1_r in Hge.
      assert (H2u : (0 < 2 ^ (- u))%Z) by (apply Z.pow_pos_nonneg; lia).
      unfold r'. nia. }
    intros [= <-] H0. rewrite Qred_correct in H0. unfold Qeq in H0.
    cbn [Qnum Qden] in H0. destruct (z <? 0)%Z; lia.
Qed.



Example doubles :
  round_double (1 # 10) = Some (3602879701896397 # 36028797018963968)
  /\ round_double (inject_Z (2 ^ 53 + 1)) = Some (inject_Z (2 ^ 53))
  /\ round_double (inject_Z (2 ^ 53 + 3)) = Some (inject_Z (2 ^ 53 + 4))
  /\ round_double (inject_Z (2 ^ 1024 - 2 ^ 970)) = None
  /\ round_double (inject_Z (2 ^ 1024 - 2 ^ 970 - 1)) = Some (inject_Z (2 ^ 1024 - 2 ^ 971))
  /\ round_double (1 # (2 ^ 1075)) = Some 0%Q
  /\ round_double (3 # (2 ^ 1075)) = Some (1 # (2 ^ 1073)).
Proof. repeat split; vm_compute; reflexivity. Qed.

(** ** Lists, results and dictionaries *)

Lemma bind_OK {A B} (m : result A) (f : A -> result B) (b : B) :
  m ≫= f = OK b -> exists a, m = OK a /\ f a = OK b.
Proof. destruct m as [a|e|]; simpl; intros H; [eauto | discriminate..]. Qed.

Lemma filter_twice {A} (P Q : A -> bool) (l : list A) :
  List.filter P (List.filter Q l) = List.filter (λ x, Q x && P x) l.
Proof.
  induction l as [|x l IH]; simpl; [reflexivity|].
  destruct (Q x); simpl; [destruct (P x)|]; rewrite ?IH; reflexivity.
Qed.

Lemma filter_ext_bool {A} (P Q : A -> bool) (l : list A) :
  (forall x, P x = Q x) -> List.filter P l = List.filter Q l.
Proof. intros H. induction l as [|x l IH]; simpl; rewrite ?H, ?IH; reflexivity. Qed.




Lemma foldM_total {A B} (f : B -> A -> result B) (xs : list A) (acc : B) :
  (forall b x, In x xs -> exists b', f b x = OK b') -> exists b', foldM f acc xs = OK b'.
Proof.
  revert acc. induction xs as [|x xs IH]; simpl; intros acc H; [eauto|].
  destruct (H acc x) as [b' Hb]; [auto|]. rewrite Hb. simpl. apply IH. auto.
Qed.

Lemma dict_get_set_eq {V} (k : value) (v : V) d : dict_get k (dict_set k v d) = Some v.
Proof.
  induction d as [|[k' v'] d IH]; simpl.
  - rewrite decide_True; auto.
  - destruct (decide (k' = k)) as [->|Hne]; simpl.
    + rewrite decide_True; auto.
    + rewrite decide_False; auto.
Qed.

Lemma dict_get_set_ne {V} (k k0 : value) (v : V) d :
  k <> k0 -> dict_get k0 (dict_set k v d) = dict_get k0 d.
Proof.
  intros Hne. induction d as [|[k' v'] d IH]; simpl.
  - rewrite decide_False; auto.
  - destruct (decide (k' = k)) as [->|Hk]; simpl.
    + rewrite !decide_False; auto.
    + destruct (decide (k' = k0)); auto.
Qed.

Lemma dict_keys_set {V} (k k0 : value) (v : V) d :
  In k0 (dict_keys (dict_set k v d)) <-> k0 = k \/ In k0 (dict_keys d).
Proof.
  unfold dict_keys. induction d as [|[k' v'] d IH]; simpl.
  - intuition.
  - destruct (decide (k' = k)) as [->|Hk]; simpl; intuition.
Qed.

(** ** Reading the header *)

Lemma col_pos_cons (c x : value) (l : list value) :
  col_pos c (x :: l) =
  if decide (x = c) then OK 0%nat
  else match col_pos c l with OK j => OK (S j) | _ => Raise KeyError end.
Proof.
  unfold col_pos. simpl. destruct (decide (x = c)); [reflexivity|].
  destruct (list_find (λ c0, c0 = c) l) as [[j y]|]; reflexivity.
Qed.

Lemma find_column_first_text (name : string) (names : list string) :
  match find_pos name names with
  | Some j =>
      exists s, lower s = name
                /\ find_column_first name (map VStr names) = OK (Some (VStr s))
                /\ col_pos (VStr s) (map VStr names) = OK j
  | None => find_column_first name (map VStr names) = OK None
  end.
Proof.
  induction names as [|s r IH]; simpl; [reflexivity|].
  destruct (String.eqb (lower s) name) eqn:E.
  - apply String.eqb_eq in E. exists s. rewrite col_pos_cons, decide_True; auto.
  - apply String.eqb_neq in E. destruct (find_pos name r) as [j|]; simpl.
    + destruct IH as (s0 & Hs0 & Hf & Hc). exists s0. rewrite col_pos_cons, Hc.
      rewrite decide_False; [auto|]. intros [= ->]. contradiction.
    + exact IH.
Qed.

Lemma find_pos_none (name : string) (names : list string) :
  ~ In name (map lower names) -> find_pos name names = None.
Proof.
  induction names as [|s r IH]; simpl; [reflexivity|]. intros H.
  destruct (String.eqb (lower s) name) eqn:E.
  - apply String.eqb_eq in E. tauto.
  - rewrite IH; [reflexivity | tauto].
Qed.

Lemma foldM_cons {A B} (f : B -> A -> result B) (acc : B) (x : A) (xs : list A) :
  foldM f acc (x :: xs) = f acc x ≫= λ acc', foldM f acc' xs.
Proof. reflexivity. Qed.

Lemma find_column_first_cons (name s : string) (r : list value) :
  find_column_first name (VStr s :: r) =
  if String.eqb (lower s) name then OK (Some (VStr s)) else find_column_first name r.
Proof. reflexivity. Qed.

(** With labels that differ up to letter case the loop without [break]
    finds the columns the loop with [break] finds. *)
Lemma find_columns_last_text (names : list string) :
  NoDup (map lower names) ->
  forall acc, exists a c,
    find_column_first "active" (map VStr names) = OK a
    /\ find_column_first "calc" (map VStr names) = OK c
    /\ foldM (λ (acc : option value * option value) col,
                l ← label_lower col;
                if String.eqb l "active" then OK (Some col, acc.2)
                else if String.eqb l "calc" then OK (acc.1, Some col)
                else OK acc)
             acc (map VStr names)
       = OK (or_else a acc.1, or_else c acc.2).
Proof.
  induction names as [|s r IH]; intros Hnd acc.
  - exists None, None. destruct acc. simpl. auto.
  - change (map lower (s :: r)) with (lower s :: map lower r) in Hnd.
    apply NoDup_cons in Hnd as [Hs Hr]. rewrite list_elem_of_In in Hs.
    change (map VStr (s :: r)) with (VStr s :: map VStr r).
    rewrite foldM_cons, !find_column_first_cons.
    change (label_lower (VStr s)) with (OK (lower s)).
    change (OK (lower s) ≫= ?f) with (f (lower s)). cbv beta.
    destruct (String.eqb (lower s) "active") eqn:Ea.
    + apply String.eqb_eq in Ea.
      assert (Ec : String.eqb (lower s) "calc" = false) by (rewrite Ea; reflexivity).
      rewrite Ec. destruct (IH Hr (Some (VStr s), acc.2)) as (a & c & Ha & Hc & Hf).
      pose proof (find_column_first_text "active" r) as Hn.
      rewrite find_pos_none in Hn by (rewrite <- Ea; exact Hs).
      rewrite Hn in Ha. injection Ha as <-.
      exists (Some (VStr s)), c. split; [reflexivity|]. split; [exact Hc|].
      etransitivity; [exact Hf|]. reflexivity.
    + destruct (String.eqb (lower s) "calc") eqn:Ec.
      * apply String.eqb_eq in Ec.
        destruct (IH Hr (acc.1, Some (VStr s))) as (a & c & Ha & Hc & Hf).
        pose proof (find_column_first_text "calc" r) as Hn.
        rewrite find_pos_none in Hn by (rewrite <- Ec; exact Hs).
        rewrite Hn in Hc. injection Hc as <-.
        exists a, (Some (VStr s)). split; [exact Ha|]. split; [reflexivity|].
        etransitivity; [exact Hf|]. reflexivity.
      * destruct (IH Hr acc) as (a & c & Ha & Hc & Hf).
        exists a, c. split; [exact Ha|]. split; [exact Hc|]. exact Hf.
Qed.

(** ** The two views of the resolver *)

Lemma has_formula_no_formula (v : value) : no_formula v = negb (has_formula v).
Proof.
  unfold no_formula, has_formula.
  destruct (isna v), (py_eq v (VStr EmptyString)); reflexivity.
Qed.

(** [get_active_metrics_list] keeps the keys of the rows that are active,
    not reserved and without a formula, in the order of the table. *)
Lemma get_active_metrics_list_view (df : DataFrame) (names : list string) (m : nat) :
  columns df = map VStr names ->
  col_pos (VStr "metrics") (columns df) = OK m ->
  get_active_metrics_list df =
  OK (map (cell m)
        (List.filter
           (λ r, row_active names r && (negb (reserved (cell m r))
                                        && negb (has_nonempty_formula names r)))
           (rows df))).
Proof.
  intros Hcols Hm. unfold get_active_metrics_list. rewrite Hm, Hcols.
  unfold row_active, has_nonempty_formula, formula_cell, reserved.
  pose proof (find_column_first_text "active" names) as Ha.
  pose proof (find_column_first_text "calc" names) as Hc.
  destruct (find_pos "active" names) as [a|].
  - destruct Ha as (sa & _ & -> & Ha). cbn [mbind result_bind]. rewrite Ha.
    cbn [mbind result_bind].
    destruct (find_pos "calc" names) as [k|].
    + destruct Hc as (sc & _ & -> & Hc). cbn [mbind result_bind]. rewrite Hc.
      cbn [mbind result_bind]. f_equal. f_equal. rewrite filter_twice.
      apply filter_ext_bool. intros r. rewrite has_formula_no_formula. reflexivity.
    + rewrite Hc. cbn [mbind result_bind]. f_equal. f_equal. rewrite filter_twice.
      apply filter_ext_bool. intros r. simpl. rewrite andb_true_r. reflexivity.
  - rewrite Ha. cbn [mbind result_bind].
    destruct (find_pos "calc" names) as [k|].
    + destruct Hc as (sc & _ & -> & Hc). cbn [mbind result_bind]. rewrite Hc.
      cbn [mbind result_bind]. f_equal. f_equal.
      apply filter_ext_bool. intros r. rewrite has_formula_no_formula. reflexivity.
    + rewrite Hc. cbn [mbind result_bind]. f_equal. f_equal.
      apply filter_ext_bool. intros r. simpl. rewrite andb_true_r. reflexivity.
Qed.

(** [get_calculated_metrics] runs its loop over the rows that are active
    and have a formula. *)
Lemma get_calculated_metrics_view (df : DataFrame) (names : list string) :
  header_ok df names ->
  get_calculated_metrics df =
  foldM (λ d row,
           key ← row_get df row (VStr "metrics");
           nm ← row_get df row (VStr "name");
           OK (dict_set key {| name := nm; calc := formula_cell names row |} d))
        []
        (List.filter (λ r, row_active names r && has_nonempty_formula names r) (rows df)).
Proof.
  intros [Hcols Hnd]. unfold get_calculated_metrics, find_columns_last. rewrite Hcols.
  destruct (find_columns_last_text names Hnd (None, None)) as (a & c & Ha & Hc & ->).
  unfold row_active, has_nonempty_formula, formula_cell.
  pose proof (find_column_first_text "active" names) as Ha'.
  pose proof (find_column_first_text "calc" names) as Hc'.
  cbn [mbind result_bind].
  destruct (find_pos "calc" names) as [k|].
  - destruct Hc' as (sc & _ & Hc' & Hk). rewrite Hc' in Hc. injection Hc as <-.
    cbn [or_else snd fst]. rewrite Hk. cbn [mbind result_bind].
    destruct (find_pos "active" names) as [j|].
    + destruct Ha' as (sa & _ & Ha' & Hj). rewrite Ha' in Ha. injection Ha as <-.
      cbn [or_else snd fst]. rewrite Hj. reflexivity.
    + rewrite Ha' in Ha. injection Ha as <-. reflexivity.
  - rewrite Hc' in Hc. injection Hc as <-. cbn [or_else snd fst].
    rewrite (filter_ext_bool _ (λ _, false)).
    + induction (rows df); simpl; auto.
    + intros r. apply andb_false_r.
Qed.

(** The keys of the dict the loop builds are the keys of the rows it ran
    over. *)
Lemma calculated_keys (df : DataFrame) (m : nat) (formula : list value -> value)
    (l : list (list value)) (d0 d : list (value * calc_info)) :
  col_pos (VStr "metrics") (columns df) = OK m ->
  foldM (λ d row,
           key ← row_get df row (VStr "metrics");
           nm ← row_get df row (VStr "name");
           OK (dict_set key {| name := nm; calc := formula row |} d))
        d0 l = OK d ->
  forall key, In key (dict_keys d) <->
              In key (dict_keys d0) \/ exists row, In row l /\ cell m row = key.
Proof.
  intros Hm. revert d0. induction l as [|row l IH]; intros d0 H key.
  - injection H as <-. simpl. split; [auto | intros [Hin|(r & [] & _)]; exact Hin].
  - rewrite foldM_cons in H. apply bind_OK in H as (d1 & Hstep & H).
    unfold row_get in Hstep. rewrite Hm in Hstep. simpl in Hstep.
    apply bind_OK in Hstep as (nm & _ & Hstep). injection Hstep as <-.
    rewrite (IH _ H key), dict_keys_set. simpl. split.
    + intros [[->|Hin]|(r & Hr & Hk)]; eauto.
    + intros [Hin|(r & [<-|Hr] & Hk)]; eauto.
Qed.

Lemma NoDup_map_inj {A B} (f : A -> B) (l : list A) (x y : A) :
  NoDup (map f l) -> In x l -> In y l -> f x = f y -> x = y.
Proof.
  induction l as [|z l IH]; simpl; [tauto|].
  intros Hnd Hx Hy Hf. apply NoDup_cons in Hnd as [Hz Hnd].
  rewrite list_elem_of_In in Hz.
  destruct Hx as [->|Hx], Hy as [->|Hy]; auto.
  - exfalso. apply Hz. rewrite Hf. apply in_map, Hy.
  - exfalso. apply Hz. rewrite <- Hf. apply in_map, Hx.
Qed.

(** C7. For a configuration whose keys are unique, the requested fields
    hold no key whose definition has a non-empty formula and no reserved
    parameter key, the derived metrics hold no key whose definition lacks
    a formula, and no key is in both views. *)
Theorem resolver_views_disjoint
    (df : DataFrame) (names : list string) (m : nat)
    (fields : list value) (derived : list (value * calc_info)) :
  header_ok df names ->
  col_pos (VStr "metrics") (columns df) = OK m ->
  NoDup (map (cell m) (rows df)) ->
  get_active_metrics_list df = OK fields ->
  get_calculated_metrics df = OK derived ->
  (forall row, In row (rows df) -> In (cell m row) fields ->
               has_nonempty_formula names row = false)
  /\ (forall key, In key fields -> reserved key = false)
  /\ (forall row, In row (rows df) -> In (cell m row) (dict_keys derived) ->
                  has_nonempty_formula names row = true)
  /\ (forall key, In key fields -> ~ In key (dict_keys derived)).
Proof.
  intros Hok Hm Hnd Hf Hd.
  rewrite (get_active_metrics_list_view df names m (proj1 Hok) Hm) in Hf.
  injection Hf as <-.
  rewrite (get_calculated_metrics_view df names Hok) in Hd.
  pose proof (calculated_keys df m _ _ _ _ Hm Hd) as Hkeys.
  assert (Hreq : forall key,
             In key (map (cell m)
                       (List.filter
                          (λ r, row_active names r
                                && (negb (reserved (cell m r))
                                    && negb (has_nonempty_formula names r)))
                          (rows df))) ->
             exists row, In row (rows df) /\ cell m row = key
                         /\ reserved key = false
                         /\ has_nonempty_formula names row = false).
  { intros key Hin. apply in_map_iff in Hin as (row & <- & Hrow).
    apply filter_In in Hrow as [Hrow Hp].
    apply andb_true_iff in Hp as [_ Hp]. apply andb_true_iff in Hp as [Hr Hn].
    apply negb_true_iff in Hr, Hn. eauto. }
  assert (Hder : forall key, In key (dict_keys derived) ->
             exists row, In row (rows df) /\ cell m row = key
                         /\ has_nonempty_formula names row = true).
  { intros key Hin. apply Hkeys in Hin as [[]|(row & Hrow & <-)].
    apply filter_In in Hrow as [Hrow Hp]. apply andb_true_iff in Hp as [_ Hp]. eauto. }
  repeat split.
  - intros row Hrow Hin. destruct (Hreq _ Hin) as (row' & Hrow' & Hk & _ & Hn).
    rewrite <- (NoDup_map_inj (cell m) (rows df) row' row Hnd Hrow' Hrow Hk). exact Hn.
  - intros key Hin. destruct (Hreq _ Hin) as (row' & _ & _ & Hr & _). exact Hr.
  - intros row Hrow Hin. destruct (Hder _ Hin) as (row' & Hrow' & Hk & Hn).
    rewrite <- (NoDup_map_inj (cell m) (rows df) row' row Hnd Hrow' Hrow Hk). exact Hn.
  - intros key Hin Hin'. destruct (Hreq _ Hin) as (r1 & Hr1 & Hk1 & _ & Hn1).
    destruct (Hder _ Hin') as (r2 & Hr2 & Hk2 & Hn2).
    assert (r1 = r2) as ->
      by (apply (NoDup_map_inj (cell m) (rows df)); auto; congruence).
    congruence.
Qed.

Lemma foldM_pure {A B} (f : B -> A -> result B) (g : B -> A -> B) (l : list A) (acc : B) :
  (forall b x, f b x = OK (g b x)) -> foldM f acc l = OK (fold_left g l acc).
Proof.
  intros H. revert acc. induction l as [|x l IH]; intros acc; [reflexivity|].
  rewrite foldM_cons, H. simpl. apply IH.
Qed.

(** With the columns 'metrics' and 'name' in a header of text labels that
    differ up to letter case, [get_calculated_metrics] returns. *)
Lemma get_calculated_metrics_total (df : DataFrame) (names : list string) (m n : nat) :
  header_ok df names ->
  col_pos (VStr "metrics") (columns df) = OK m ->
  col_pos (VStr "name") (columns df) = OK n ->
  get_calculated_metrics df =
  OK (fold_left
        (λ d row, dict_set (cell m row)
                    {| name := cell n row; calc := formula_cell names row |} d)
        (List.filter (λ r, row_active names r && has_nonempty_formula names r) (rows df))
        []).
Proof.
  intros Hok Hm Hn. rewrite (get_calculated_metrics_view df names Hok).
  apply foldM_pure. intros d row. unfold row_get. rewrite Hm, Hn. reflexivity.
Qed.

(** C10. A configuration without a column named 'active' (in any letter
    case) has every row treated as active: the requested fields are the
    keys of all the rows that are neither reserved nor derived, and the
    derived metrics are keyed by exactly the rows with a non-empty
    formula. *)
Theorem no_active_column_all_rows_active
    (df : DataFrame) (names : list string) (m n : nat) :
  header_ok df names ->
  ~ In "active" (map lower names) ->
  col_pos (VStr "metrics") (columns df) = OK m ->
  col_pos (VStr "name") (columns df) = OK n ->
  get_active_metrics_list df =
    OK (map (cell m)
          (List.filter
             (λ r, negb (reserved (cell m r)) && negb (has_nonempty_formula names r))
             (rows df)))
  /\ exists derived,
       get_calculated_metrics df = OK derived
       /\ forall key, In key (dict_keys derived) <->
                      exists row, In row (rows df) /\ cell m row = key
                                  /\ has_nonempty_formula names row = true.
Proof.
  intros Hok Hno Hm Hn. pose proof (find_pos_none _ _ Hno) as Hpos. split.
  - rewrite (get_active_metrics_list_view df names m (proj1 Hok) Hm).
    unfold row_active. rewrite Hpos. reflexivity.
  - eexists. split; [apply (get_calculated_metrics_total df names m n Hok Hm Hn)|].
    intros key.
    pose proof (get_calculated_metrics_total df names m n Hok Hm Hn) as Heq.
    rewrite (get_calculated_metrics_view df names Hok) in Heq.
    rewrite (calculated_keys df m _ _ _ _ Hm Heq key). simpl.
    unfold row_active. rewrite Hpos. split.
    + intros [[]|(row & Hrow & Hk)]. apply filter_In in Hrow as [Hrow Hp]. eauto.
    + intros (row & Hrow & Hk & Hf). right. exists row. split; [|exact Hk].
      apply filter_In. split; [exact Hrow | exact Hf].
Qed.

Example sample_views :
  get_active_metrics_list sample_config
  = OK [VStr "impressions"; VStr "clicks"; VStr "cost_micros"; VStr "conversions"]
  /\ get_calculated_metrics sample_config
     = OK [ (VStr "conversion_rate",
             {| name := VStr "CVR"; calc := VStr "conversions / clicks" |});
            (VStr "cost_per_click",
             {| name := VStr "クリック単価"; calc := VStr "cost_micros / clicks" |}) ]
  /\ get_period_days sample_config = OK 30
  /\ get_limit sample_config = OK 50.
Proof. repeat split; vm_compute; reflexivity. Qed.

Lemma sample_header_ok : header_ok sample_config sample_names.
Proof. split; [reflexivity|]. apply (bool_decide_unpack _). vm_compute. exact I. Defined.

Lemma flagless_header_ok : header_ok flagless_config flagless_names.
Proof. split; [reflexivity|]. apply (bool_decide_unpack _). vm_compute. exact I. Defined.

Lemma resolver_views_disjoint_witness :
  (forall row, In row (rows sample_config) ->
     In (cell 0 row)
        [VStr "impressions"; VStr "clicks"; VStr "cost_micros"; VStr "conversions"] ->
     has_nonempty_formula sample_names row = false)
  /\ (forall key,
        In key [VStr "impressions"; VStr "clicks"; VStr "cost_micros"; VStr "conversions"] ->
        reserved key = false)
  /\ (forall row, In row (rows sample_config) ->
        In (cell 0 row) [VStr "conversion_rate"; VStr "cost_per_click"] ->
        has_nonempty_formula sample_names row = true)
  /\ (forall key,
        In key [VStr "impressions"; VStr "clicks"; VStr "cost_micros"; VStr "conversions"] ->
        ~ In key [VStr "conversion_rate"; VStr "cost_per_click"]).
Proof.
  apply (resolver_views_disjoint sample_config sample_names 0
           [VStr "impressions"; VStr "clicks"; VStr "cost_micros"; VStr "conversions"]
           [ (VStr "conversion_rate",
              {| name := VStr "CVR"; calc := VStr "conversions / clicks" |});
             (VStr "cost_per_click",
              {| name := VStr "クリック単価"; calc := VStr "cost_micros / clicks" |}) ]).
  - exact sample_header_ok.
  - reflexivity.
  - apply (bool_decide_unpack _). vm_compute. exact I.
  - vm_compute. reflexivity.
  - vm_compute. reflexivity.
Defined.

Lemma no_active_column_all_rows_active_witness :
  get_active_metrics_list flagless_config
  = OK [VStr "impressions"; VStr "clicks"; VStr "cost_micros"; VStr "conversions";
        VStr "ctr"]
  /\ exists derived,
       get_calculated_metrics flagless_config = OK derived
       /\ forall key, In key (dict_keys derived) <->
                      exists row, In row (rows flagless_config) /\ cell 0 row = key
                                  /\ has_nonempty_formula flagless_names row = true.
Proof.
  apply (no_active_column_all_rows_active flagless_config flagless_names 0 1).
  - exact flagless_header_ok.
  - vm_compute. intuition discriminate.
  - reflexivity.
  - reflexivity.
Defined.

(** ** The active flag *)




(** ** The reserved parameters *)

(** Text that is not a number makes [int] raise a ValueError, which
    [get_limit] and [get_period_days] turn into the default. *)
Lemma get_limit_fallback (df : DataFrame) (m p : nat) (r : list value) rest :
  col_pos (VStr "metrics") (columns df) = OK m ->
  col_pos (VStr "parameter") (columns df) = OK p ->
  List.filter (λ r, py_eq (cell m r) (VStr "limit")) (rows df) = r :: rest ->
  py_int (cell p r) = Raise ValueError ->
  get_limit df = OK 100.
Proof.
  intros Hm Hp Hrow Hint. unfold get_limit. rewrite Hm. cbn [mbind result_bind].
  rewrite Hrow, Hp. cbn [mbind result_bind]. rewrite Hint. reflexivity.
Qed.

Lemma get_period_days_fallback (df : DataFrame) (m p : nat) (r : list value) rest :
  col_pos (VStr "metrics") (columns df) = OK m ->
  col_pos (VStr "parameter") (columns df) = OK p ->
  List.filter (λ r, py_eq (cell m r) (VStr "period_days")) (rows df) = r :: rest ->
  py_int (cell p r) = Raise ValueError ->
  get_period_days df = OK 30.
Proof.
  intros Hm Hp Hrow Hint. unfold get_period_days. rewrite Hm. cbn [mbind result_bind].
  rewrite Hrow, Hp. cbn [mbind result_bind]. rewrite Hint. reflexivity.
Qed.

Lemma py_int_text (s : string) :
  py_int (VStr s) = match int_of_str s with Some z => OK z | None => Raise ValueError end.
Proof. reflexivity. Qed.

(** C2. The guard is there in [get_limit] and [get_period_days] for text
    that is not a number, and missing elsewhere: [get_query_parameters]
    applies [int] bare and raises on the same table, and a blank
    parameter cell raises a TypeError the guard of [get_limit] does not
    catch. *)
Theorem parameter_fallback_is_partial :
  get_limit careless_config = OK 100
  /\ get_query_parameters careless_config = Raise ValueError
  /\ get_limit blank_limit_config = Raise TypeError
  /\ get_query_parameters blank_limit_config
     = OK {| campaign_status := VStr "ENABLED"; period_days := 30; limit := 100 |}.
Proof. repeat split; vm_compute; reflexivity. Qed.

(** ** The query *)

(** The query of the live path, from the parts the configuration gives. *)
Lemma submitted_query_parts (today : Z) (df : DataFrame)
    (active : list value) (derived : list (value * calc_info))
    (days lim start : Z) (fields : list string) :
  get_active_metrics_list df = OK active ->
  get_calculated_metrics df = OK derived ->
  get_period_days df = OK days ->
  date_sub today days = OK start ->
  get_limit df = OK lim ->
  mapM as_str (map get_field_mapping active) = OK fields ->
  submitted_query today df
  = OK (campaign_query (join ", " fields) (strftime_ymd start) (strftime_ymd today)
          (str_of_int lim)).
Proof.
  intros Ha Hd Hp Hs Hl Hf. unfold submitted_query.
  rewrite Ha, Hd, Hp. cbn [mbind result_bind]. rewrite Hs, Hl. cbn [mbind result_bind].
  rewrite Hf. reflexivity.
Qed.

(** Every query the live path submits is made this way: the status
    filter is the literal of [campaign_query] whatever the configuration
    says. *)
Lemma submitted_query_shape (today : Z) (df : DataFrame) (query : string) :
  submitted_query today df = OK query ->
  exists active days start lim fields,
    get_active_metrics_list df = OK active
    /\ get_period_days df = OK days
    /\ date_sub today days = OK start
    /\ get_limit df = OK lim
    /\ mapM as_str (map get_field_mapping active) = OK fields
    /\ query = campaign_query (join ", " fields) (strftime_ymd start)
                 (strftime_ymd today) (str_of_int lim).
Proof.
  unfold submitted_query. intros H.
  apply bind_OK in H as (active & Ha & H). apply bind_OK in H as (derived & _ & H).
  apply bind_OK in H as (days & Hd & H). apply bind_OK in H as (start & Hs & H).
  apply bind_OK in H as (lim & Hl & H). apply bind_OK in H as (fields & Hf & H).
  injection H as <-. exists active, days, start, lim, fields. auto 10.
Qed.

(** It is the text [get_campaign_metrics] calls [search] with. *)
Lemma get_campaign_metrics_submits
    (py_eval : evaluator)
    (search : string -> string -> result (list RawRow))
    (today : Z) (cid : string) (df : DataFrame)
    (active : list value) (derived : list (value * calc_info)) (query : string) :
  get_active_metrics_list df = OK active ->
  get_calculated_metrics df = OK derived ->
  submitted_query today df = OK query ->
  get_campaign_metrics py_eval search today cid df
  = match search cid query ≫= mapM (shape_row py_eval df active derived) with
    | OK campaign_metrics => OK (Some campaign_metrics)
    | Raise _ => OK None
    | Abort => Abort
    end.
Proof.
  intros Ha Hd. unfold submitted_query, get_campaign_metrics. rewrite Ha, Hd.
  cbn [mbind result_bind].
  destruct (get_period_days df) as [days|e|]; [|discriminate..]. cbn [mbind result_bind].
  destruct (date_sub today days) as [start|e|]; [|discriminate..]. cbn [mbind result_bind].
  destruct (get_limit df) as [lim|e|]; [|discriminate..]. cbn [mbind result_bind].
  destruct (mapM as_str (map get_field_mapping active)) as [fields|e|]; [|discriminate..].
  cbn [mbind result_bind]. intros [= <-]. reflexivity.
Qed.

(** C1. On a configuration that asks for paused campaigns, 30 days back
    from 2025-03-10 and 50 rows, the query the live path submits has the
    four dimensions, the requested fields, the two dates and the limit,
    but it filters on 'ENABLED', has no guard on impressions and no
    ordering; [build_query] has these three on the same configuration
    and leaves the dates as placeholders. *)
Theorem submitted_query_ignores_status_filter :
  submitted_query 739320 sample_config
  = OK (campaign_query
          "metrics.impressions, metrics.clicks, metrics.cost_micros, metrics.conversions"
          "2025-02-08" "2025-03-10" "50")
  /\ (campaign_status <$> (match get_query_parameters sample_config with
                            | OK p => Some p | _ => None end)) = Some (VStr "PAUSED")
  /\ (forall repr_float,
      match submitted_query 739320 sample_config, build_query repr_float sample_config with
      | OK submitted, OK (built, _) =>
          contains "campaign.status = 'ENABLED'" submitted = true
          /\ contains "campaign.status = 'PAUSED'" submitted = false
          /\ contains "metrics.impressions > 0" submitted = false
          /\ contains "ORDER BY metrics.impressions DESC" submitted = false
          /\ contains "campaign.status = 'PAUSED'" built = true
          /\ contains "metrics.impressions > 0" built = true
          /\ contains "ORDER BY metrics.impressions DESC" built = true
          /\ contains "BETWEEN '{start_date}' AND '{end_date}'" built = true
          /\ contains "LIMIT 50" submitted = true
          /\ contains "LIMIT 50" built = true
      | _, _ => False
      end).
Proof.
  split; [vm_compute; reflexivity|]. split; [vm_compute; reflexivity|].
  intros repr_float. vm_compute. repeat split.
Qed.

(** ** Shaping a record *)

Lemma add_metric_put df attrs acc metric :
  add_metric df attrs acc metric = put_metric df (live_value attrs) acc metric.
Proof.
  unfold add_metric, put_metric, live_value.
  destruct (display_name df metric) as [nm|e|]; [|reflexivity..]. cbn [mbind result_bind].
  destruct metric as [| |b|z|q|s|neg]; try reflexivity.
  destruct (attrs !! s) as [v|]; [|reflexivity].
  destruct (if py_eq (VStr s) (VStr "cost_micros") then _ else _); reflexivity.
Qed.

Lemma add_dummy_metric_put df i acc metric :
  add_dummy_metric df i acc metric = put_metric df (dummy_metric_value i) acc metric.
Proof.
  unfold add_dummy_metric, put_metric, dummy_metric_value.
  destruct (display_name df metric) as [nm|e|]; [|reflexivity..]. cbn [mbind result_bind].
  destruct (dummy_value metric i); reflexivity.
Qed.

Lemma foldM_ext {A B} (f g : B -> A -> result B) (l : list A) (acc : B) :
  (forall b x, f b x = g b x) -> foldM f acc l = foldM g acc l.
Proof.
  intros H. revert acc. induction l as [|x l IH]; intros acc; [reflexivity|].
  rewrite !foldM_cons, H. destruct (g acc x); simpl; auto.
Qed.

Section PutMetric.

Variable df : DataFrame.
Variable val : value -> result (option value).
Variables (target nm stored : value).
Hypothesis Hval : val target = OK (Some stored).
Hypothesis Hname : display_name df target = OK nm.

Lemma put_metric_target acc :
  put_metric df val acc target
  = OK (dict_set nm stored acc.1, dict_set target stored acc.2).
Proof. unfold put_metric. rewrite Hname, Hval. reflexivity. Qed.

Lemma put_metric_other acc acc' metric :
  metric <> target ->
  put_metric df val acc metric = OK acc' ->
  dict_get target acc'.2 = dict_get target acc.2
  /\ (display_name df metric <> OK nm -> dict_get nm acc'.1 = dict_get nm acc.1).
Proof.
  intros Hne H. unfold put_metric in H.
  apply bind_OK in H as (nm' & Hnm' & H). apply bind_OK in H as ([v|] & _ & H);
    injection H as <-; simpl.
  - split; [apply dict_get_set_ne; exact Hne|].
    intros Hd. apply dict_get_set_ne. congruence.
  - auto.
Qed.

(** Once the value is in the variables it stays, and so it does in the
    record when no other metric is shown under the same name. *)
Lemma put_metrics_keep l : forall acc acc',
  foldM (put_metric df val) acc l = OK acc' ->
  (dict_get target acc.2 = Some stored -> dict_get target acc'.2 = Some stored)
  /\ ((forall metric, In metric l -> metric <> target -> display_name df metric <> OK nm) ->
      dict_get nm acc.1 = Some stored -> dict_get nm acc'.1 = Some stored).
Proof.
  induction l as [|x l IH]; intros acc acc' H.
  - injection H as <-. auto.
  - rewrite foldM_cons in H. apply bind_OK in H as (acc1 & Hstep & H).
    destruct (IH _ _ H) as [IH2 IH1]. destruct (decide (x = target)) as [->|Hne].
    + rewrite put_metric_target in Hstep. injection Hstep as <-. split.
      * intros _. apply IH2. apply dict_get_set_eq.
      * intros Hothers _. apply IH1; [intros; apply Hothers; simpl; auto|].
        apply dict_get_set_eq.
    + destruct (put_metric_other _ _ _ Hne Hstep) as [H2 H1]. split.
      * intros Hin. apply IH2. rewrite H2. exact Hin.
      * intros Hothers Hin. apply IH1; [intros; apply Hothers; simpl; auto|].
        rewrite H1; [exact Hin|]. apply Hothers; simpl; auto.
Qed.

Lemma put_metrics_get l : forall acc acc',
  In target l ->
  foldM (put_metric df val) acc l = OK acc' ->
  dict_get target acc'.2 = Some stored
  /\ ((forall metric, In metric l -> metric <> target -> display_name df metric <> OK nm) ->
      dict_get nm acc'.1 = Some stored).
Proof.
  induction l as [|x l IH]; intros acc acc' Hin H; [destruct Hin|].
  rewrite foldM_cons in H. apply bind_OK in H as (acc1 & Hstep & H).
  destruct (decide (x = target)) as [->|Hne].
  - rewrite put_metric_target in Hstep. injection Hstep as <-.
    destruct (put_metrics_keep _ _ _ H) as [K2 K1]. split.
    + apply K2. apply dict_get_set_eq.
    + intros Hothers. apply K1; [intros; apply Hothers; simpl; auto|].
      apply dict_get_set_eq.
  - destruct Hin as [Hin|Hin]; [contradiction|].
    destruct (IH _ _ Hin H) as [I2 I1]. split; [exact I2|].
    intros Hothers. apply I1. intros; apply Hothers; simpl; auto.
Qed.

End PutMetric.

(** A loop that completes has given every metric of the list a value or
    found it absent. *)
Lemma put_metrics_defined df val l : forall acc acc' metric,
  foldM (put_metric df val) acc l = OK acc' -> In metric l ->
  exists o nm, val metric = OK o /\ display_name df metric = OK nm.
Proof.
  induction l as [|x l IH]; intros acc acc' metric H Hin; [destruct Hin|].
  rewrite foldM_cons in H. apply bind_OK in H as (acc1 & Hstep & H).
  destruct Hin as [->|Hin]; [|eapply IH; eauto].
  unfold put_metric in Hstep. apply bind_OK in Hstep as (nm & Hnm & Hstep).
  apply bind_OK in Hstep as (o & Ho & _). eauto.
Qed.

(** A turn of the loop over the derived metrics that comes back has
    written the field: the value of the formula, or [None] when it
    raised. *)
Lemma add_calculated_step py_eval acc (entry : value * calc_info) :
  add_calculated py_eval acc entry
  = match (calc_result py_eval entry.1 (calc entry.2) acc.1).2 with
    | Abort => Abort
    | r => OK ((calc_result py_eval entry.1 (calc entry.2) acc.1).1,
               dict_set (name entry.2) (field_value r) acc.2)
    end.
Proof.
  unfold add_calculated.
  destruct (calc_result py_eval entry.1 (calc entry.2) acc.1) as [variables [v|e|]];
    reflexivity.
Qed.

Lemma add_calculated_OK py_eval acc acc' (entry : value * calc_info) :
  add_calculated py_eval acc entry = OK acc' ->
  exists v, acc'.2 = dict_set (name entry.2) v acc.2.
Proof.
  rewrite add_calculated_step.
  destruct ((calc_result py_eval entry.1 (calc entry.2) acc.1).2);
    intros H; try discriminate; injection H as <-; simpl; eauto.
Qed.

Lemma calculated_keep py_eval (nm : value) (l : list (value * calc_info)) :
  forall acc acc',
  foldM (add_calculated py_eval) acc l = OK acc' ->
  (forall entry, In entry l -> name entry.2 <> nm) ->
  dict_get nm acc'.2 = dict_get nm acc.2.
Proof.
  induction l as [|x l IH]; intros acc acc' H Hne.
  - injection H as <-. reflexivity.
  - rewrite foldM_cons in H. apply bind_OK in H as (acc1 & Hstep & H).
    rewrite (IH _ _ H) by (intros; apply Hne; simpl; auto).
    apply add_calculated_OK in Hstep as (v & ->). apply dict_get_set_ne.
    apply Hne. simpl. auto.
Qed.

(** ** Derived metrics *)












Example sample_row_shaped :
  shape_row ratio_eval sample_config sample_active sample_derived sample_row
  = OK sample_record.
Proof. vm_compute. reflexivity. Qed.

Example sample_batch_shaped :
  get_campaign_metrics ratio_eval (λ _ _, OK [sample_row; sample_row]) 739320
    "2197645811" sample_config
  = OK (Some [sample_record; sample_record]).
Proof. vm_compute. reflexivity. Qed.

(** An evaluator that rebinds the clicks, one that raises whatever it is
    given, and one that does not come back. *)
Example formulas_of_every_kind :
  add_calculated (λ _ variables, (dict_set (VStr "clicks") (VInt 7) variables, OK (VInt 1)))
    ([(VStr "clicks", VInt 0)], [])
    (VStr "cost_per_click", {| name := VStr "CPC"; calc := VStr "(clicks := 7) / 7" |})
  = OK ([(VStr "clicks", VInt 7)], [(VStr "CPC", VInt 1)])
  /\ shape_row (λ _ variables, (variables, Raise NameError)) sample_config sample_active
       sample_derived sample_row
     = OK sample_record
  /\ shape_row (λ _ variables, (variables, Abort)) sample_config sample_active
       sample_derived sample_row
     = Abort.
Proof. repeat split; vm_compute; reflexivity. Qed.

(** ** Unit conversion *)

(** C9. In a record of the live path a requested metric the row has is
    stored under its display name: the cost in micros divided by
    1,000,000 (5,000,000 micros are 5.0), every other metric as the
    service gave it. (The display name is taken not to be shared with
    another requested or derived metric, which would write over it.) *)
Theorem cost_micros_in_currency_units
    (py_eval : evaluator)
    (df : DataFrame) (active : list value) (derived : list (value * calc_info))
    (row : RawRow) (rec : list (value * value)) (s : string) (v nm : value) :
  shape_row py_eval df active derived row = OK rec ->
  In (VStr s) active ->
  metrics row !! s = Some v ->
  display_name df (VStr s) = OK nm ->
  (forall metric, In metric active -> metric <> VStr s -> display_name df metric <> OK nm) ->
  (forall entry, In entry derived -> name entry.2 <> nm) ->
  (forall acc,
      add_metric df (metrics row) acc (VStr s)
      = (stored ← (if decide (s = "cost_micros")
                   then py_truediv v (VInt 1000000) else OK v);
         OK (dict_set nm stored acc.1, dict_set (VStr s) stored acc.2)))
  /\ (s = "cost_micros" ->
       exists units, py_truediv v (VInt 1000000) = OK units /\ dict_get nm rec = Some units)
  /\ (s <> "cost_micros" -> dict_get nm rec = Some v)
  /\ py_truediv (VInt 5000000) (VInt 1000000) = OK (VFloat 5).
Proof.
  intros Hrec Hin Hv Hnm Hothers Hderived. split.
  { intros acc. unfold add_metric. rewrite Hnm, Hv. cbn [mbind result_bind].
    destruct (decide (s = "cost_micros")) as [->|Hs]; [reflexivity|].
    assert (py_eq (VStr s) (VStr "cost_micros") = false) as ->; [|reflexivity].
    unfold py_eq. simpl. apply String.eqb_neq. exact Hs. }
  unfold shape_row in Hrec.
  apply bind_OK in Hrec as (acc & Hfold & Hrec).
  apply bind_OK in Hrec as (done & Hdone & Hrec). injection Hrec as <-.
  rewrite (calculated_keep py_eval nm derived _ _ Hdone Hderived). cbn [snd].
  rewrite (foldM_ext _ (put_metric df (live_value (metrics row)))) in Hfold
    by (intros; apply add_metric_put).
  destruct (put_metrics_defined _ _ _ _ _ _ Hfold Hin) as (o & nm' & Ho & _).
  assert (Hstored : forall stored, o = Some stored -> dict_get nm acc.1 = Some stored).
  { intros stored ->.
    exact (proj2 (put_metrics_get df _ _ nm stored Ho Hnm active _ _ Hin Hfold) Hothers). }
  unfold live_value in Ho. rewrite Hv in Ho.
  split; [|split; [|reflexivity]].
  - intros ->. change (py_eq (VStr "cost_micros") (VStr "cost_micros")) with true in Ho.
    apply bind_OK in Ho as (units & Hunits & Ho). injection Ho as <-. eauto.
  - intros Hs. assert (py_eq (VStr s) (VStr "cost_micros") = false) as E.
    { unfold py_eq. simpl. apply String.eqb_neq. exact Hs. }
    rewrite E in Ho. simpl in Ho. injection Ho as <-. auto.
Qed.

Lemma cost_micros_in_currency_units_witness :
  (exists units, py_truediv (VInt 5000000) (VInt 1000000) = OK units
                 /\ dict_get (VStr "費用") sample_record = Some units)
  /\ dict_get (VStr "費用") sample_record = Some (VFloat 5)
  /\ dict_get (VStr "インプレッション数") sample_record = Some (VInt 1200).
Proof.
  cut (forall P Q R S : Prop, P /\ Q /\ R /\ S -> Q /\ R /\ S); [|tauto]. intros drop1.
  assert (Hothers : forall nm0 s0,
             display_name sample_config (VStr s0) = OK nm0 ->
             forall metric, In metric sample_active -> metric <> VStr s0 ->
             In (VStr s0) sample_active ->
             display_name sample_config metric <> OK nm0).
  { intros nm0 s0 H0 metric Hin Hne Hs0. simpl in Hin, Hs0.
    destruct Hin as [<-|[<-|[<-|[<-|[]]]]], Hs0 as [E|[E|[E|[E|[]]]]];
      injection E as <-; try contradiction;
      vm_compute in H0; injection H0 as <-; vm_compute; discriminate. }
  assert (Hderived : forall nm0, In nm0 [VStr "費用"; VStr "インプレッション数"] ->
             forall entry, In entry sample_derived -> name entry.2 <> nm0).
  { intros nm0 H0 entry Hin. simpl in H0, Hin.
    destruct H0 as [<-|[<-|[]]], Hin as [<-|[<-|[]]]; vm_compute; discriminate. }
  split; [|split].
  - apply (drop1 _ _ _ _
             (cost_micros_in_currency_units ratio_eval sample_config sample_active
                sample_derived sample_row sample_record "cost_micros" (VInt 5000000)
                (VStr "費用") ltac:(vm_compute; reflexivity) ltac:(simpl; auto)
                ltac:(vm_compute; reflexivity) ltac:(vm_compute; reflexivity)
                ltac:(intros metric Hin Hne;
                      apply (Hothers (VStr "費用") "cost_micros");
                      [vm_compute; reflexivity|..]; simpl; auto)
                ltac:(apply Hderived; simpl; auto))).
    reflexivity.
  - reflexivity.
  - apply (drop1 _ _ _ _
             (cost_micros_in_currency_units ratio_eval sample_config sample_active
                sample_derived sample_row sample_record "impressions" (VInt 1200)
                (VStr "インプレッション数") ltac:(vm_compute; reflexivity) ltac:(simpl; auto)
                ltac:(vm_compute; reflexivity) ltac:(vm_compute; reflexivity)
                ltac:(intros metric Hin Hne;
                      apply (Hothers (VStr "インプレッション数") "impressions");
                      [vm_compute; reflexivity|..]; simpl; auto)
                ltac:(apply Hderived; simpl; auto))).
    discriminate.
Defined.

(** ** Dummy data *)


Lemma frame_of_records_rows (records : list (list (value * value))) :
  length (rows (frame_of_records records)) = length records.
Proof. unfold frame_of_records. simpl. apply length_map. Qed.

Lemma set_column_rows (label v : value) (df : DataFrame) :
  length (rows (set_column label v df)) = length (rows df).
Proof.
  unfold set_column. destruct (list_find _ (columns df)) as [[j c]|]; simpl;
    apply length_map.
Qed.

(** The inference of the dtypes keeps the header and the number of rows. *)
Lemma convert_columns_shape (df typed : DataFrame) :
  convert_columns df = OK typed ->
  columns typed = columns df /\ length (rows typed) = length (rows df).
Proof.
  unfold convert_columns. intros H. apply bind_OK in H as (cols & _ & H).
  injection H as <-. split; [reflexivity|]. cbn [rows]. apply length_imap.
Qed.

Lemma tabulate_rows (now : string) (records : list (list (value * value)))
    (frame : DataFrame) :
  tabulate now records = OK frame -> length (rows frame) = length records.
Proof.
  unfold tabulate, data_frame. intros H. apply bind_OK in H as (typed & Htyped & H).
  injection H as <-. rewrite set_column_rows.
  rewrite (proj2 (convert_columns_shape _ _ Htyped)). apply frame_of_records_rows.
Qed.

(** *** What the summary and the frame can take *)























(** A formula that gives an integer of 5000 digits: the summary of the
    dummy path cannot print it and the generator raises; the live path,
    which prints no summary, shapes the record. *)
Example huge_value_stops_the_summary :
  get_dummy_campaign_metrics (λ _ variables, (variables, OK (VInt (10 ^ 5000))))
    sample_config
  = Raise ValueError
  /\ (λ record, dict_get (VStr "クリック単価") record)
       <$> (match shape_row (λ _ variables, (variables, OK (VInt (10 ^ 5000))))
                    sample_config sample_active sample_derived sample_row with
            | OK record => Some record | _ => None end)
     = Some (Some (VInt (10 ^ 5000))).
Proof. split; vm_compute; reflexivity. Qed.

(** ** Stacking frames *)

Lemma add_new_app (l : list value) : forall acc,
  exists extra, add_new acc l = acc ++ extra
                /\ forall c, In c extra -> In c l /\ ~ In c acc.
Proof.
  induction l as [|x l IH]; intros acc; simpl.
  - exists []. rewrite app_nil_r. split; [reflexivity | intros c []].
  - destruct (bool_decide (x ∈ acc)) eqn:E.
    + destruct (IH acc) as (extra & -> & H). exists extra. split; [reflexivity|].
      intros c Hc. destruct (H c Hc). auto.
    + apply bool_decide_eq_false in E. rewrite list_elem_of_In in E.
      destruct (IH (acc ++ [x])) as (extra & -> & H). exists (x :: extra).
      rewrite <- app_assoc. split; [reflexivity|].
      intros c [<-|Hc]; [auto|]. destruct (H c Hc) as [H1 H2]. split; [auto|].
      intros Hin. apply H2, in_or_app. auto.
Qed.

Lemma add_new_nodup (l : list value) : forall acc,
  NoDup (acc ++ l) -> add_new acc l = acc ++ l.
Proof.
  induction l as [|x l IH]; intros acc Hnd; simpl; [symmetry; apply app_nil_r|].
  rewrite bool_decide_eq_false_2.
  - rewrite IH, <- app_assoc; [reflexivity|]. rewrite <- app_assoc. exact Hnd.
  - apply NoDup_app in Hnd as (_ & Hdis & _). intros Hx. apply (Hdis x Hx). left.
Qed.



Lemma list_find_absent (l : list value) (c : value) :
  ~ In c l -> list_find (λ c', c' = c) l = None.
Proof.
  intros H. apply list_find_None. apply Forall_forall. intros x Hx ->.
  apply H. apply list_elem_of_In. exact Hx.
Qed.


Lemma max_width_ge (data : list (list value)) (r : list value) :
  In r data -> (length r <= foldr (λ r w, Nat.max (length r) w) 0%nat data)%nat.
Proof.
  induction data as [|x data IH]; simpl; [tauto|].
  intros [->|H]; [lia|]. specialize (IH H). lia.
Qed.


(** [pd.concat] gives a frame for equal headers, and for different ones
    when no label is repeated in either. *)
Lemma concat_defined (a b : DataFrame) :
  columns a = columns b \/ (NoDup (columns a) /\ NoDup (columns b)) ->
  exists combined, concat a b = OK combined.
Proof.
  intros H. unfold concat. destruct (decide (columns a = columns b)); [eauto|].
  destruct H as [H|[Ha Hb]]; [contradiction|].
  rewrite !bool_decide_eq_true_2 by assumption. simpl. eauto.
Qed.



(** ** Merge and persist *)

Section Persist.

Context {store : Type}.
Variable read_range : store -> store * result (list (list value)).
Variable write_range : store -> list (list value) -> store * result Z.

Lemma write_and_report_unfold (st : store) (out : list printed) (df : DataFrame) :
  write_and_report write_range st out df
  = (let '(st', w) := write_range st (columns df :: rows df) in
     match w with
     | OK n => (st', out ++ [CellsUpdated n], OK tt)
     | Raise e => (st', out, Raise e)
     | Abort => (st', out, Abort)
     end).
Proof. reflexivity. Qed.


(** C5. When the read of the destination fails, or the frame cannot be
    built from it, or the frame is empty, every write step 3 makes is of
    the header and the N rows of the batch as they are: one write after a
    failed read, whose fault is reported in the output and does not reach
    the caller (step 3 ends as the write ends), and after an empty read a
    write that is repeated once if it fails; when the write succeeds the
    destination got the batch alone.  (A read that does not come back
    ends step 3 there.) *)
Theorem persist_writes_new_rows_alone
    (st st1 : store) (r : result (list (list value))) (df : DataFrame) :
  read_range st = (st1, r) ->
  match r ≫= frame_of_values with
  | OK existing => df_empty existing = true
  | Raise _ => True
  | Abort => True
  end ->
  persist read_range write_range st df
  = match r ≫= frame_of_values with
    | Raise e => write_and_report write_range st1 [ReadFailed e] df
    | OK _ =>
        match write_and_report write_range st1 [] df with
        | (st2, out, Raise e) => write_and_report write_range st2 (out ++ [ReadFailed e]) df
        | done => done
        end
    | Abort => (st1, [], Abort)
    end
  /\ (forall st' out,
        write_and_report write_range st' out df
        = (let '(st2, w) := write_range st' (columns df :: rows df) in
           match w with
           | OK n => (st2, out ++ [CellsUpdated n], OK tt)
           | Raise e => (st2, out, Raise e)
           | Abort => (st2, out, Abort)
           end))
  /\ length (columns df :: rows df) = S (length (rows df))
  /\ (forall st2 n,
        write_range st1 (columns df :: rows df) = (st2, OK n) ->
        persist read_range write_range st df
        = match r ≫= frame_of_values with
          | OK _ => (st2, [CellsUpdated n], OK tt)
          | Raise e => (st2, [ReadFailed e; CellsUpdated n], OK tt)
          | Abort => (st1, [], Abort)
          end).
Proof.
  intros Hread Hnone.
  assert (Hpersist :
    persist read_range write_range st df
    = match r ≫= frame_of_values with
      | Raise e => write_and_report write_range st1 [ReadFailed e] df
      | OK _ =>
          match write_and_report write_range st1 [] df with
          | (st2, out, Raise e) =>
              write_and_report write_range st2 (out ++ [ReadFailed e]) df
          | done => done
          end
      | Abort => (st1, [], Abort)
      end).
  { unfold persist, merge_and_write, read_as_dataframe. rewrite Hread.
    destruct (r ≫= frame_of_values) as [existing|e|]; [|reflexivity..].
    rewrite Hnone. reflexivity. }
  split; [exact Hpersist|]. split; [intros; apply write_and_report_unfold|].
  split; [reflexivity|]. intros st2 n Hwrite. rewrite Hpersist.
  destruct (r ≫= frame_of_values) as [existing|e|]; [| |reflexivity];
    rewrite write_and_report_unfold, Hwrite; reflexivity.
Qed.

(** A fault of the read never ends step 3 by itself: with a read that
    failed, step 3 is the write of the batch alone, whatever it gives. *)
Lemma persist_after_read_fault (st st1 : store) (r : result (list (list value)))
    (df : DataFrame) (e : exn) :
  read_range st = (st1, r) ->
  r ≫= frame_of_values = Raise e ->
  persist read_range write_range st df
  = write_and_report write_range st1 [ReadFailed e] df.
Proof.
  intros Hread He. unfold persist, merge_and_write, read_as_dataframe.
  rewrite Hread, He. reflexivity.
Qed.

End Persist.



(** The same with a batch that brings a column of integers the
    destination lacks. *)
Example persist_appends_wider_batch :
  exists combined,
    concat {| columns := [VStr "キャンペーンID"; VStr "インプレッション数"; VStr "取得日時"];
              rows := drop 1 earlier_sheet |} wider_batch = OK combined
    /\ convert_columns wider_batch = OK wider_batch
    /\ drop 2 (rows combined)
       = [ [VStr "100001"; VInt 1100; VStr "2025-03-10 09:00:00"; VFloat 60] ].
Proof. eexists. repeat split; vm_compute; reflexivity. Qed.

Lemma persist_writes_new_rows_alone_witness :
  persist sheet_read sheet_write None same_labels_batch
  = (Some (columns same_labels_batch :: rows same_labels_batch),
     [ReadFailed ServiceFault; CellsUpdated 6], OK tt)
  /\ persist sheet_read sheet_write (Some []) same_labels_batch
     = (Some (columns same_labels_batch :: rows same_labels_batch),
        [CellsUpdated 6], OK tt).
Proof.
  split.
  - apply (persist_writes_new_rows_alone sheet_read sheet_write None None
             (Raise ServiceFault) same_labels_batch eq_refl I). reflexivity.
  - apply (persist_writes_new_rows_alone sheet_read sheet_write (Some []) (Some [])
             (OK []) same_labels_batch eq_refl eq_refl). reflexivity.
Defined.

(** * Further properties of the modules *)

(** ** The average cost per click *)

Lemma num_of_is_number (v : value) (x : Q) : num_of v = Some x -> is_number v = true.
Proof. destruct v; simpl; intros H; try discriminate; reflexivity. Qed.

Lemma Qle_bool_false_lt (x y : Q) : Qle_bool x y = false <-> (y < x)%Q.
Proof.
  split.
  - intros H. apply Qnot_le_lt. intros Hle. apply Qle_bool_iff in Hle. congruence.
  - intros H. destruct (Qle_bool x y) eqn:E; [|reflexivity].
    apply Qle_bool_iff in E. exfalso. exact (Qlt_not_le _ _ H E).
Qed.

Lemma py_gt_zero (clicks : value) (c : Q) :
  num_of clicks = Some c -> py_gt clicks (VInt 0) = OK (negb (Qle_bool c 0)).
Proof. intros H. unfold py_gt. rewrite H. reflexivity. Qed.

(** A division raises ZeroDivisionError only on a divisor that is a
    number equal to zero. *)
Lemma py_truediv_zero_division (a b : value) :
  py_truediv a b = Raise ZeroDivisionError ->
  exists y, num_of b = Some y /\ Qeq_bool y 0 = true.
Proof.
  unfold py_truediv. destruct (is_int a && is_int b).
  - destruct (num_of a) as [x|]; [|discriminate]. destruct (num_of b) as [y|]; [|discriminate].
    destruct (Qeq_bool y 0) eqn:E; [eauto|]. destruct (round_double _); discriminate.
  - destruct (is_number a && is_number b); [|discriminate].
    assert (Hconv : forall v, to_float v <> Raise ZeroDivisionError).
    { intros v. unfold to_float, float_of_int. destruct v; try discriminate.
      destruct (round_double _); discriminate. }
    destruct (to_float a) as [x|e|] eqn:Ea; cbn [mbind result_bind];
      [|intros H; rewrite H in Ea; destruct (Hconv a Ea) | discriminate].
    destruct (to_float b) as [y|e|] eqn:Eb; cbn [mbind result_bind];
      [|intros H; rewrite H in Eb; destruct (Hconv b Eb) | discriminate].
    unfold float_div. destruct y as [| | | |qy| |]; try (destruct x; discriminate).
    destruct (Qeq_bool qy 0) eqn:E; [|destruct x; try discriminate].
    intros _. unfold to_float, float_of_int in Eb. destruct b; try discriminate.
    + injection Eb as <-. destruct b; [discriminate|]. simpl. eauto.
    + destruct (round_double (inject_Z z)) as [r|] eqn:Er; [|discriminate].
      injection Eb as ->. apply Qeq_bool_iff in E.
      rewrite (round_double_int_nonzero z qy Er E). simpl. eauto.
    + injection Eb as ->. simpl. eauto.
Qed.

Lemma py_gt_true_number (clicks : value) :
  py_gt clicks (VInt 0) = OK true ->
  forall y, num_of clicks = Some y -> Qeq_bool y 0 = false.
Proof.
  intros H y Hy. rewrite (py_gt_zero _ _ Hy) in H. injection H as H.
  apply negb_true_iff, Qle_bool_false_lt in H.
  destruct (Qeq_bool y 0) eqn:E; [|reflexivity].
  apply Qeq_bool_iff in E. rewrite E in H. exfalso. exact (Qlt_irrefl _ H).
Qed.

(** X1. [calculate_average_cpc] gives 0 for clicks that are a number not
    above zero, whatever the cost is, and what the division of the cost
    by the clicks gives for clicks above zero; the guard on the clicks
    keeps the division from ever dividing by zero, so the handler for it
    is never entered and the function never raises that exception. *)
Theorem average_cpc_never_divides_by_zero (cost_micros clicks : value) :
  (forall c, num_of clicks = Some c -> (c <= 0)%Q ->
             calculate_average_cpc cost_micros clicks = OK (VInt 0))
  /\ (forall c, num_of clicks = Some c -> (0 < c)%Q ->
                calculate_average_cpc cost_micros clicks = py_truediv cost_micros clicks)
  /\ (positive ← py_gt clicks (VInt 0);
      if positive : bool then py_truediv cost_micros clicks else OK (VInt 0))
     <> Raise ZeroDivisionError
  /\ calculate_average_cpc cost_micros clicks <> Raise ZeroDivisionError.
Proof.
  assert (Hdiv : py_gt clicks (VInt 0) = OK true ->
                 py_truediv cost_micros clicks <> Raise ZeroDivisionError).
  { intros Hgt H. apply py_truediv_zero_division in H as (y & Hy & Hz).
    rewrite (py_gt_true_number _ Hgt y Hy) in Hz. discriminate Hz. }
  assert (Hbody : (positive ← py_gt clicks (VInt 0);
                   if positive : bool then py_truediv cost_micros clicks else OK (VInt 0))
                  <> Raise ZeroDivisionError).
  { intros H. destruct (py_gt clicks (VInt 0)) as [[|]|e|] eqn:Hgt;
      cbn [mbind result_bind] in H; [|discriminate H| |discriminate H].
    - exact (Hdiv eq_refl H).
    - injection H as ->. unfold py_gt in Hgt.
      destruct (num_of clicks); [discriminate Hgt|].
      destruct (is_number clicks && is_number (VInt 0)); [discriminate Hgt|].
      destruct clicks; discriminate Hgt. }
  split; [|split; [|split; [exact Hbody|]]].
  - intros c Hc Hle. unfold calculate_average_cpc. rewrite (py_gt_zero _ _ Hc).
    apply Qle_bool_iff in Hle. rewrite Hle. reflexivity.
  - intros c Hc Hpos. unfold calculate_average_cpc.
    assert (Hgt : py_gt clicks (VInt 0) = OK true).
    { rewrite (py_gt_zero _ _ Hc), (proj2 (Qle_bool_false_lt c 0) Hpos). reflexivity. }
    rewrite Hgt. cbn [mbind result_bind]. specialize (Hdiv Hgt).
    destruct (py_truediv cost_micros clicks) as [r|e|]; [reflexivity| |reflexivity].
    destruct e; try reflexivity. contradiction.
  - unfold calculate_average_cpc.
    destruct (positive ← py_gt clicks (VInt 0);
              if positive : bool then py_truediv cost_micros clicks else OK (VInt 0))
      as [r|e|]; [discriminate| |discriminate]. destruct e; discriminate.
Qed.

(** What the quotient is for two integers: the double nearest to it, an
    OverflowError beyond the doubles; 0.03 / 9 is the double a float
    division gives, one unit in the last place off the double nearest to
    1/300. *)
Example quotients :
  calculate_average_cpc (VInt 5000000) (VInt 4) = OK (VFloat 1250000)
  /\ calculate_average_cpc (VInt 1) (VInt 3)
     = OK (VFloat (6004799503160661 # 18014398509481984))
  /\ calculate_average_cpc (VInt (10 ^ 400)) (VInt 1) = Raise OverflowError
  /\ calculate_average_cpc (fl (3 # 100)) (VInt 9)
     = OK (VFloat (3843071682022823 # 1152921504606846976))
  /\ bool_decide (calculate_average_cpc (fl (3 # 100)) (VInt 9) = OK (fl (1 # 300)))
     = false
  /\ calculate_average_cpc (VInt 10) (VInt 0) = OK (VInt 0).
Proof. repeat split; vm_compute; reflexivity. Qed.

(** ** Frames written and read *)

Lemma widest_of_equal (w : nat) (data : list (list value)) :
  data <> [] -> (forall r, In r data -> length r = w) ->
  foldr (λ r w, Nat.max (length r) w) 0%nat data = w.
Proof.
  induction data as [|r data IH]; [congruence|]. intros _ H. simpl.
  rewrite (H r) by (simpl; auto). destruct data as [|r' data]; [simpl; lia|].
  rewrite IH; [lia | discriminate | intros; apply H; simpl; auto].
Qed.

Lemma pad_nothing (w : nat) (data : list (list value)) :
  (forall r, In r data -> length r = w) ->
  map (λ r, r ++ replicate (w - length r) VNone) data = data.
Proof.
  intros H. rewrite <- (map_id data) at 2. apply map_ext_in. intros r Hr.
  rewrite (H r Hr), Nat.sub_diag. apply app_nil_r.
Qed.

(** X2. A frame of text, labels and cells, whose rows are as wide as its
    header, written by [write_dataframe] and read back by
    [read_as_dataframe] from a store that returns what was written, is
    the frame that was written. *)
Theorem written_frame_reads_back (df : DataFrame) :
  forallb (forallb is_str) (frame_values df) = true ->
  (forall row, In row (rows df) -> length row = length (columns df)) ->
  frame_of_values (frame_values df) = OK df
  /\ forall (store : Type) (read_range : store -> store * result (list (list value)))
            (write_range : store -> list (list value) -> store * result Z)
            (st st1 st2 : store) (n : Z),
       write_dataframe write_range st df = (st1, OK n) ->
       read_range st1 = (st2, OK (frame_values df)) ->
       read_as_dataframe read_range st1 = (st2, OK df).
Proof.
  intros _ Hwf.
  assert (H : frame_of_values (frame_values df) = OK df).
  { destruct df as [cols data]. unfold frame_values, frame_of_values, frame_of_lists.
    simpl in *. destruct data as [|r data]; [reflexivity|].
    rewrite (widest_of_equal (length cols) (r :: data)) by (auto; discriminate).
    rewrite Nat.eqb_refl. f_equal. f_equal. apply pad_nothing. exact Hwf. }
  split; [exact H|]. intros store read_range write_range st st1 st2 n _ Hread.
  unfold read_as_dataframe. rewrite Hread. simpl. rewrite <- H. reflexivity.
Qed.

Lemma written_frame_reads_back_witness :
  frame_of_values (frame_values earlier_frame) = OK earlier_frame
  /\ read_as_dataframe sheet_read
       (write_dataframe sheet_write None earlier_frame).1
     = (Some (frame_values earlier_frame), OK earlier_frame).
Proof.
  destruct (written_frame_reads_back earlier_frame) as [H1 H2].
  - reflexivity.
  - intros row [<-|[<-|[]]]; reflexivity.
  - split; [exact H1|].
    apply (H2 _ sheet_read sheet_write None (Some (frame_values earlier_frame))
              (Some (frame_values earlier_frame)) 9); reflexivity.
Defined.

Lemma widest_some_longer (data : list (list value)) (r : list value) (w : nat) :
  In r data -> (w < length r)%nat ->
  (w < foldr (λ r w, Nat.max (length r) w) 0%nat data)%nat.
Proof. intros Hr Hw. pose proof (max_width_ge data r Hr). lia. Qed.

Lemma widest_all_shorter (data : list (list value)) (w : nat) :
  (0 < w)%nat -> (forall r, In r data -> (length r < w)%nat) ->
  (foldr (λ r w, Nat.max (length r) w) 0%nat data < w)%nat.
Proof.
  intros Hw. induction data as [|r data IH]; simpl; intros H; [exact Hw|].
  pose proof (H r (or_introl eq_refl)). specialize (IH (λ r' Hr', H r' (or_intror Hr'))).
  lia.
Qed.

Lemma frame_of_lists_rows (headers : list value) (data : list (list value)) :
  data <> [] ->
  frame_of_lists headers data
  = (let width := foldr (λ r w, Nat.max (length r) w) 0%nat data in
     if (width =? length headers)%nat
     then OK {| columns := headers;
                rows := map (λ r, r ++ replicate (width - length r) VNone) data |}
     else Raise ValueError).
Proof. destruct data; [congruence | reflexivity]. Qed.

(** X3. What [read_as_dataframe] makes of the rectangle under a header:
    a row wider than the header makes it fail with a ValueError, and so
    do data rows that are all narrower than the header (the store leaves
    out trailing blank cells); when it gives a frame, the header is the
    first row, there is one row per data row in the same order, and each
    is the row read, padded with [None] up to the width of the header. *)
Theorem read_frame_shapes (headers : list value) (data : list (list value)) :
  ((exists r, In r data /\ (length headers < length r)%nat) ->
   frame_of_values (headers :: data) = Raise ValueError)
  /\ (data <> [] -> (forall r, In r data -> (length r < length headers)%nat) ->
      frame_of_values (headers :: data) = Raise ValueError)
  /\ (forall f, frame_of_values (headers :: data) = OK f ->
        columns f = headers
        /\ length (rows f) = length data
        /\ forall i r, data !! i = Some r ->
             rows f !! i = Some (r ++ replicate (length headers - length r) VNone)).
Proof.
  unfold frame_of_values. split; [|split].
  - intros (r & Hr & Hlen).
    rewrite frame_of_lists_rows by (intros ->; destruct Hr). cbv zeta.
    pose proof (widest_some_longer data r (length headers) Hr Hlen) as H.
    destruct (Nat.eqb_spec (foldr (λ r w, Nat.max (length r) w) 0%nat data)
                           (length headers)); [lia | reflexivity].
  - intros Hne Hall. rewrite frame_of_lists_rows by exact Hne. cbv zeta.
    assert (0 < length headers)%nat as Hpos.
    { destruct data as [|d data]; [congruence|].
      pose proof (Hall d (or_introl eq_refl)). lia. }
    pose proof (widest_all_shorter data (length headers) Hpos Hall) as H.
    destruct (Nat.eqb_spec (foldr (λ r w, Nat.max (length r) w) 0%nat data)
                           (length headers)); [lia | reflexivity].
  - intros f. destruct (decide (data = [])) as [->|Hne].
    + intros [= <-]. simpl. split; [reflexivity|]. split; [reflexivity|].
      intros i r Hi. destruct i; discriminate.
    + rewrite frame_of_lists_rows by exact Hne. cbv zeta.
      destruct (Nat.eqb_spec (foldr (λ r w, Nat.max (length r) w) 0%nat data)
                             (length headers)) as [Hw|]; [|discriminate].
      intros [= <-]. cbn [columns rows]. split; [reflexivity|].
      split; [apply length_map|]. intros i r Hi.
      rewrite list_lookup_fmap, Hi, Hw. reflexivity.
Qed.

(** ** Loading the configuration *)

(** X4. The configuration is loaded once: when the first call of
    [get_metrics_config] returns a frame, the frame has a row, it is in
    the cache, and every later call returns the same frame without
    touching the store, whatever the store holds by then; when the first
    call fails nothing is cached. *)
Theorem configuration_is_loaded_once
    (store : Type) (read_range : store -> store * result (list (list value)))
    (st : store) :
  match MetricsConfigLoader.get_metrics_config read_range None st with
  | (cache, _, OK metrics_df) =>
      cache = Some metrics_df
      /\ rows metrics_df <> []
      /\ forall (read_range' : store -> store * result (list (list value))) (st' : store),
           MetricsConfigLoader.get_metrics_config read_range' cache st'
           = (cache, st', OK metrics_df)
  | (cache, _, _) => cache = None
  end.
Proof.
  unfold MetricsConfigLoader.get_metrics_config, read_as_dataframe.
  destruct (read_range st) as [st1 r]. destruct r as [values|e|]; simpl; [|reflexivity..].
  destruct (frame_of_values values) as [df|e|]; simpl; [|reflexivity..].
  unfold MetricsConfigLoader.iloc0. destruct (rows df) as [|r0 rest] eqn:E; simpl;
    [reflexivity|].
  split; [reflexivity|]. split; [rewrite E; discriminate | reflexivity].
Qed.

(** X5. A configuration sheet with nothing under its header, or with
    nothing at all, cannot be loaded: the read succeeds, printing the
    first row raises an IndexError, and nothing is cached. *)
Theorem empty_configuration_sheet_is_refused
    (store : Type) (read_range : store -> store * result (list (list value)))
    (st st1 : store) (values : list (list value)) :
  read_range st = (st1, OK values) ->
  (length values <= 1)%nat ->
  MetricsConfigLoader.get_metrics_config read_range None st = (None, st1, Raise IndexError).
Proof.
  intros Hread Hlen. unfold MetricsConfigLoader.get_metrics_config, read_as_dataframe.
  rewrite Hread. destruct values as [|headers [|r data]]; [reflexivity..|].
  simpl in Hlen. lia.
Qed.

Lemma empty_configuration_sheet_is_refused_witness :
  MetricsConfigLoader.get_metrics_config sheet_read None
    (Some [map VStr sample_names])
  = (None, Some [map VStr sample_names], Raise IndexError).
Proof.
  apply (empty_configuration_sheet_is_refused _ sheet_read
           (Some [map VStr sample_names]) (Some [map VStr sample_names])
           [map VStr sample_names] eq_refl).
  simpl. lia.
Defined.

(** ** The two resolvers and the parameters *)

Lemma col_pos_absent (c : value) (l : list value) :
  ~ In c l -> col_pos c l = Raise KeyError.
Proof. intros H. unfold col_pos. rewrite list_find_absent by exact H. reflexivity. Qed.

Lemma col_pos_at (c : value) (l : list value) (j : nat) :
  col_pos c l = OK j -> l !! j = Some c.
Proof.
  revert j. induction l as [|x l IH]; intros j; [discriminate|].
  rewrite col_pos_cons. destruct (decide (x = c)) as [->|Hne].
  - intros [= <-]. reflexivity.
  - destruct (col_pos c l) as [j'|e|]; [|discriminate..].
    intros [= <-]. simpl. apply IH. reflexivity.
Qed.

Lemma text_label_absent (s : string) (names : list string) :
  ~ In s names -> ~ In (VStr s) (map VStr names).
Proof. intros H Hin. apply in_map_iff in Hin as (s' & [= ->] & Hs'). exact (H Hs'). Qed.

(** X6. The resolver behind [build_query] needs a column called exactly
    'active': on a table of text labels without it, for one whose flag
    column is spelled 'Active', [get_active_metrics],
    [get_query_parameters] and [build_query] raise a KeyError (where
    [get_active_metrics_list] accepts any letter case). *)
Theorem legacy_resolver_needs_the_exact_label (df : DataFrame) (names : list string) :
  columns df = map VStr names ->
  ~ In "active" names ->
  get_active_metrics df = Raise KeyError
  /\ get_query_parameters df = Raise KeyError
  /\ forall repr_float, build_query repr_float df = Raise KeyError.
Proof.
  intros Hcols Hno.
  assert (H : col_pos (VStr "active") (columns df) = Raise KeyError).
  { rewrite Hcols. apply col_pos_absent, text_label_absent, Hno. }
  assert (Ha : get_active_metrics df = Raise KeyError)
    by (unfold get_active_metrics; rewrite H; reflexivity).
  split; [exact Ha|]. split.
  - unfold get_query_parameters. rewrite H. reflexivity.
  - intros repr_float. unfold build_query. rewrite Ha. reflexivity.
Qed.

Lemma legacy_resolver_needs_the_exact_label_witness :
  (get_active_metrics cased_config = Raise KeyError
   /\ get_query_parameters cased_config = Raise KeyError
   /\ forall repr_float, build_query repr_float cased_config = Raise KeyError)
  /\ get_active_metrics_list cased_config
     = OK [VStr "impressions"; VStr "clicks"; VStr "cost_micros"; VStr "conversions"].
Proof.
  split.
  - apply (legacy_resolver_needs_the_exact_label cased_config
             ["metrics"; "name"; "Active"; "parameter"; "calc"] eq_refl).
    simpl. intuition discriminate.
  - vm_compute. reflexivity.
Defined.

Lemma find_pos_found (s : string) (names : list string) :
  In s names -> exists j, find_pos (lower s) names = Some j.
Proof.
  induction names as [|x names IH]; simpl; [tauto|]. intros H.
  destruct (String.eqb (lower x) (lower s)) eqn:E; [eauto|].
  destruct H as [->|H]; [rewrite String.eqb_refl in E; discriminate|].
  destruct (IH H) as [j ->]. simpl. eauto.
Qed.

(** In a header whose labels differ up to letter case, the column named
    exactly by a lower-case name is the one found in any letter case. *)
Lemma exact_label_pos (name : string) (names : list string) :
  NoDup (map lower names) -> In name names -> lower name = name ->
  exists j, find_pos name names = Some j /\ col_pos (VStr name) (map VStr names) = OK j.
Proof.
  intros Hnd Hin Hlow. destruct (find_pos_found name names Hin) as [j Hj].
  rewrite Hlow in Hj. exists j. split; [exact Hj|].
  pose proof (find_column_first_text name names) as H. rewrite Hj in H.
  destruct H as (s0 & Hs0 & _ & Hpos).
  assert (In s0 names) as Hin0.
  { apply col_pos_at in Hpos. rewrite list_lookup_fmap in Hpos.
    destruct (names !! j) as [s1|] eqn:E; [|discriminate]. injection Hpos as ->.
    apply list_elem_of_In. eapply list_elem_of_lookup_2. exact E. }
  assert (s0 = name) as <-; [|exact Hpos].
  apply (NoDup_map_inj lower names); auto. congruence.
Qed.

(** X7. On a well-formed table with a column 'active', the fields
    [get_active_metrics] gives to [build_query] are the keys of all the
    active rows that are not reserved, derived metrics included; the
    fields of [get_active_metrics_list] are among them. *)
Theorem legacy_resolver_requests_derived_metrics
    (df : DataFrame) (names : list string) (m : nat) :
  header_ok df names ->
  In "active" names ->
  col_pos (VStr "metrics") (columns df) = OK m ->
  exists legacy fields,
    get_active_metrics df = OK legacy
    /\ get_active_metrics_list df = OK fields
    /\ (forall key, In key fields -> In key legacy)
    /\ (forall row, In row (rows df) -> row_active names row = true ->
          reserved (cell m row) = false -> In (cell m row) legacy).
Proof.
  intros [Hcols Hnd] Hin Hm.
  destruct (exact_label_pos "active" names Hnd Hin eq_refl) as (a & Ha & Hpos).
  do 2 eexists. split; [|split; [apply (get_active_metrics_list_view df names m Hcols Hm)|]].
  - unfold get_active_metrics. rewrite Hcols, Hpos. rewrite <- Hcols, Hm. reflexivity.
  - split.
    + intros key Hkey. apply in_map_iff in Hkey as (row & <- & Hrow).
      apply filter_In in Hrow as [Hrow Hp].
      apply andb_true_iff in Hp as [Hact Hp]. apply andb_true_iff in Hp as [Hres _].
      unfold row_active in Hact. rewrite Ha in Hact.
      apply in_map, filter_In. split; [|exact Hres].
      apply filter_In. split; [exact Hrow | exact Hact].
    + intros row Hrow Hact Hres. unfold row_active in Hact. rewrite Ha in Hact.
      apply in_map, filter_In. split; [|unfold reserved in Hres; rewrite Hres; reflexivity].
      apply filter_In. split; [exact Hrow | exact Hact].
Qed.

Lemma legacy_resolver_requests_derived_metrics_witness :
  exists legacy fields,
    get_active_metrics sample_config = OK legacy
    /\ get_active_metrics_list sample_config = OK fields
    /\ (forall key, In key fields -> In key legacy)
    /\ (forall row, In row (rows sample_config) -> row_active sample_names row = true ->
          reserved (cell 0 row) = false -> In (cell 0 row) legacy).
Proof.
  apply (legacy_resolver_requests_derived_metrics sample_config sample_names 0
           sample_header_ok).
  - simpl. auto.
  - reflexivity.
Defined.

Example legacy_fields_of_the_sample :
  get_active_metrics sample_config
  = OK [VStr "impressions"; VStr "clicks"; VStr "cost_micros"; VStr "conversions";
        VStr "conversion_rate"; VStr "cost_per_click"].
Proof. vm_compute. reflexivity. Qed.

Lemma first_match_agree {A} (m p : nat) (Q : value -> bool) (F : value -> A) (D : A)
    (l l' : list (list value)) :
  map (λ r, (cell m r, cell p r)) l = map (λ r, (cell m r, cell p r)) l' ->
  match List.filter (λ r, Q (cell m r)) l with r :: _ => F (cell p r) | [] => D end
  = match List.filter (λ r, Q (cell m r)) l' with r :: _ => F (cell p r) | [] => D end.
Proof.
  revert l'. induction l as [|r l IH]; intros [|r' l'] H; try discriminate; [reflexivity|].
  simpl in H. injection H as Hm Hp Hrest. simpl. rewrite Hm.
  destruct (Q (cell m r')); [rewrite Hp; reflexivity | apply IH, Hrest].
Qed.

Lemma sample_columns_nodup : NoDup (columns sample_config).
Proof. apply (bool_decide_unpack _). vm_compute. exact I. Qed.

(** X8. The limit and the window of the live path depend on the columns
    'metrics' and 'parameter' only: two tables with the same header, in
    which no label is repeated, that agree on these two columns give the
    same [get_limit] and the same [get_period_days], whatever their
    active flags are. *)
Theorem live_parameters_ignore_the_active_flag (df df' : DataFrame) (m p : nat) :
  columns df = columns df' ->
  NoDup (columns df) ->
  col_pos (VStr "metrics") (columns df) = OK m ->
  col_pos (VStr "parameter") (columns df) = OK p ->
  map (λ r, (cell m r, cell p r)) (rows df) = map (λ r, (cell m r, cell p r)) (rows df') ->
  get_limit df = get_limit df' /\ get_period_days df = get_period_days df'.
Proof.
  intros Hcols _ Hm Hp Hrows. unfold get_limit, get_period_days.
  rewrite <- Hcols, Hm, Hp. cbn [mbind result_bind]. split.
  - apply (first_match_agree m p (λ v, py_eq v (VStr "limit"))
             (λ v, match py_int v with
                   | OK z => OK z
                   | Raise ValueError => OK 100
                   | other => other
                   end) (OK 100) _ _ Hrows).
  - apply (first_match_agree m p (λ v, py_eq v (VStr "period_days"))
             (λ v, match py_int v with
                   | OK z => OK z
                   | Raise ValueError => OK 30
                   | other => other
                   end) (OK 30) _ _ Hrows).
Qed.

Lemma live_parameters_ignore_the_active_flag_witness :
  (get_limit sample_config = get_limit inactive_limit_config
   /\ get_period_days sample_config = get_period_days inactive_limit_config)
  /\ get_limit inactive_limit_config = OK 50
  /\ limit <$> (match get_query_parameters inactive_limit_config with
                | OK params => Some params | _ => None end) = Some 100.
Proof.
  split; [|split; vm_compute; reflexivity].
  apply (live_parameters_ignore_the_active_flag sample_config inactive_limit_config 0 3
           eq_refl sample_columns_nodup); reflexivity.
Defined.

Lemma filter_none {A} (P : A -> bool) (l : list A) :
  (forall x, In x l -> P x = false) -> List.filter P l = [].
Proof.
  induction l as [|x l IH]; simpl; intros H; [reflexivity|].
  rewrite (H x) by auto. apply IH. auto.
Qed.

(** X9. [get_query_parameters] reads active rows only: on a table in
    whose header no label is repeated, when no active row has a reserved
    key it returns the defaults, status 'ENABLED', 30 days and 100 rows,
    without looking at any parameter cell. *)
Theorem switched_off_parameters_give_defaults (df : DataFrame) (a m : nat) :
  NoDup (columns df) ->
  col_pos (VStr "active") (columns df) = OK a ->
  col_pos (VStr "metrics") (columns df) = OK m ->
  (forall row, In row (rows df) -> is_active (cell a row) = true ->
               reserved (cell m row) = false) ->
  get_query_parameters df
  = OK {| campaign_status := VStr "ENABLED"; period_days := 30; limit := 100 |}.
Proof.
  intros _ Ha Hm Hnone.
  assert (H : forall param, In (VStr param) excluded_fields ->
                            active_parameter df a m param = OK None).
  { intros param Hparam. unfold active_parameter. rewrite filter_none; [reflexivity|].
    intros row Hrow. apply filter_In in Hrow as [Hrow Hact].
    destruct (py_eq (cell m row) (VStr param)) eqn:E; [|reflexivity].
    pose proof (Hnone row Hrow Hact) as Hres. unfold reserved, isin in Hres.
    assert (existsb (py_eq (cell m row)) excluded_fields = true); [|congruence].
    apply existsb_exists. eauto. }
  unfold get_query_parameters. rewrite Ha, Hm. cbn [mbind result_bind].
  rewrite !H by (simpl; auto). reflexivity.
Qed.

Lemma switched_off_parameters_give_defaults_witness :
  get_query_parameters switched_off_config
  = OK {| campaign_status := VStr "ENABLED"; period_days := 30; limit := 100 |}
  /\ get_limit switched_off_config = OK 50.
Proof.
  split; [|vm_compute; reflexivity].
  apply (switched_off_parameters_give_defaults switched_off_config 2 0
           sample_columns_nodup eq_refl eq_refl).
  intros row Hrow. simpl in Hrow.
  repeat (destruct Hrow as [<-|Hrow]; [vm_compute; intros H; first [reflexivity | discriminate H]|]).
  destruct Hrow.
Defined.

Lemma derived_keep (m n : nat) (formula : list value -> value) (key : value)
    (l : list (list value)) : forall d,
  (forall r, In r l -> cell m r <> key) ->
  dict_get key
    (fold_left (λ d row, dict_set (cell m row)
                           {| name := cell n row; calc := formula row |} d) l d)
  = dict_get key d.
Proof.
  induction l as [|r l IH]; intros d H; [reflexivity|]. simpl.
  rewrite IH by (intros; apply H; simpl; auto).
  apply dict_get_set_ne. apply H. simpl. auto.
Qed.

(** X10. When a derived metric is defined by more than one active row,
    the last of them gives its display name and its formula. *)
Theorem last_definition_of_a_derived_metric_wins
    (df : DataFrame) (names : list string) (m n : nat)
    (pre post : list (list value)) (row : list value) :
  header_ok df names ->
  col_pos (VStr "metrics") (columns df) = OK m ->
  col_pos (VStr "name") (columns df) = OK n ->
  List.filter (λ r, row_active names r && has_nonempty_formula names r) (rows df)
  = pre ++ row :: post ->
  (forall r, In r post -> cell m r <> cell m row) ->
  exists derived,
    get_calculated_metrics df = OK derived
    /\ dict_get (cell m row) derived
       = Some {| name := cell n row; calc := formula_cell names row |}.
Proof.
  intros Hok Hm Hn Hrows Hlast. eexists.
  split; [apply (get_calculated_metrics_total df names m n Hok Hm Hn)|].
  rewrite Hrows, fold_left_app. simpl. rewrite derived_keep by exact Hlast.
  apply dict_get_set_eq.
Qed.

Lemma last_definition_of_a_derived_metric_wins_witness :
  exists derived,
    get_calculated_metrics twice_defined_config = OK derived
    /\ dict_get (VStr "cost_per_click") derived
       = Some {| name := VStr "CPC"; calc := VStr "clicks / cost_micros" |}.
Proof.
  apply (last_definition_of_a_derived_metric_wins twice_defined_config sample_names 0 1
           [ [VStr "cost_per_click"; VStr "クリック単価"; VStr "TRUE"; VStr EmptyString;
              VStr "cost_micros / clicks"] ]
           []
           [VStr "cost_per_click"; VStr "CPC"; VStr "TRUE"; VStr EmptyString;
            VStr "clicks / cost_micros"]).
  - split; [reflexivity|]. apply (bool_decide_unpack _). vm_compute. exact I.
  - reflexivity.
  - reflexivity.
  - vm_compute. reflexivity.
  - intros r [].
Defined.

(** ** How a run ends *)

(** X11. In live mode a query that fails, a row that cannot be shaped or
    an empty answer ends the run with "no data": nothing is read from or
    written to the destination, and the run does not count as failed. *)
Theorem failed_query_ends_the_run_without_data
    (store : Type) (read_range : store -> store * result (list (list value)))
    (write_range : store -> list (list value) -> store * result Z)
    (py_eval : evaluator)
    (search : string -> string -> result (list RawRow))
    (today : Z) (now cid : string) (df : DataFrame) (st : store)
    (active : list value) (derived : list (value * calc_info)) (query : string) :
  get_active_metrics_list df = OK active ->
  get_calculated_metrics df = OK derived ->
  submitted_query today df = OK query ->
  (search cid query ≫= mapM (shape_row py_eval df active derived) = OK []
   \/ exists e, search cid query ≫= mapM (shape_row py_eval df active derived) = Raise e) ->
  main read_range write_range py_eval search false today now cid df st = (st, [], NoData).
Proof.
  intros Ha Hd Hq Hnone. unfold main.
  rewrite (get_campaign_metrics_submits py_eval search today cid df active derived query
             Ha Hd Hq).
  destruct Hnone as [->|[e ->]]; reflexivity.
Qed.

Lemma failed_query_ends_the_run_without_data_witness :
  main sheet_read sheet_write ratio_eval (λ _ _, Raise ServiceFault) false 739320
    "2025-03-10 09:00:00" "2197645811" sample_config (Some earlier_sheet)
  = (Some earlier_sheet, [], NoData).
Proof.
  apply (failed_query_ends_the_run_without_data _ sheet_read sheet_write ratio_eval
           (λ _ _, Raise ServiceFault) 739320 "2025-03-10 09:00:00" "2197645811"
           sample_config (Some earlier_sheet) sample_active sample_derived
           (campaign_query
              "metrics.impressions, metrics.clicks, metrics.cost_micros, metrics.conversions"
              "2025-02-08" "2025-03-10" "50")).
  - vm_compute. reflexivity.
  - vm_compute. reflexivity.
  - vm_compute. reflexivity.
  - right. exists ServiceFault. reflexivity.
Defined.




(** X13. The first day of the window is computed before the [try]: a
    window that leaves the calendar (before 0001-01-01, after 9999-12-31,
    or longer than a [timedelta] can be) raises an OverflowError out of
    [get_campaign_metrics], which does not return [None] then, and the
    run ends with status 1 without touching the destination. *)
Theorem window_off_the_calendar_fails_the_run
    (store : Type) (read_range : store -> store * result (list (list value)))
    (write_range : store -> list (list value) -> store * result Z)
    (py_eval : evaluator)
    (search : string -> string -> result (list RawRow))
    (today : Z) (now cid : string) (df : DataFrame) (st : store)
    (active : list value) (derived : list (value * calc_info)) (days : Z) :
  get_active_metrics_list df = OK active ->
  get_calculated_metrics df = OK derived ->
  get_period_days df = OK days ->
  (today - days < 1 \/ max_ordinal < today - days \/ 999999999 < Z.abs days)%Z ->
  get_campaign_metrics py_eval search today cid df = Raise OverflowError
  /\ main read_range write_range py_eval search false today now cid df st
     = (st, [], Exit1 OverflowError).
Proof.
  intros Ha Hd Hp Hoff.
  assert (Hs : date_sub today days = Raise OverflowError).
  { unfold date_sub. destruct (Z.ltb_spec 999999999 (Z.abs days)); [reflexivity|].
    destruct (Z.leb_spec 1 (today - days)); [|reflexivity].
    destruct (Z.leb_spec (today - days) max_ordinal); [|reflexivity]. lia. }
  assert (H : get_campaign_metrics py_eval search today cid df = Raise OverflowError).
  { unfold get_campaign_metrics. rewrite Ha, Hd, Hp. cbn [mbind result_bind].
    rewrite Hs. reflexivity. }
  split; [exact H|]. unfold main. rewrite H. reflexivity.
Qed.

Lemma window_off_the_calendar_fails_the_run_witness :
  get_campaign_metrics ratio_eval (λ _ _, OK [sample_row]) 739320 "2197645811"
    far_window_config = Raise OverflowError
  /\ main sheet_read sheet_write ratio_eval (λ _ _, OK [sample_row]) false 739320
       "2025-03-10 09:00:00" "2197645811" far_window_config (Some earlier_sheet)
     = (Some earlier_sheet, [], Exit1 OverflowError).
Proof.
  apply (window_off_the_calendar_fails_the_run _ sheet_read sheet_write ratio_eval
           (λ _ _, OK [sample_row]) 739320 "2025-03-10 09:00:00" "2197645811"
           far_window_config (Some earlier_sheet) [VStr "impressions"] [] 800000).
  - vm_compute. reflexivity.
  - vm_compute. reflexivity.
  - vm_compute. reflexivity.
  - left. lia.
Defined.

(** ** Step 3 when the merge fails *)

(** X14. When the existing table was read and stacked but writing the
    combined table fails, the [except] branch of step 3 takes over: the
    fault is reported as a failed read and the batch alone is written
    from the top of the destination. *)
Theorem failed_write_of_the_merge_falls_back
    (store : Type) (read_range : store -> store * result (list (list value)))
    (write_range : store -> list (list value) -> store * result Z)
    (st st1 st2 : store) (values : list (list value))
    (existing df combined : DataFrame) (e : exn) :
  read_range st = (st1, OK values) ->
  frame_of_values values = OK existing ->
  df_empty existing = false ->
  concat existing df = OK combined ->
  write_range st1 (frame_values combined) = (st2, Raise e) ->
  persist read_range write_range st df
  = write_and_report write_range st2
      [ExistingRows (length (rows existing)); CombinedRows (length (rows combined));
       ReadFailed e] df.
Proof.
  intros Hread Hframe Hempty Hconcat Hwrite.
  unfold persist, merge_and_write, read_as_dataframe. rewrite Hread.
  cbn [mbind result_bind]. rewrite Hframe, Hempty, Hconcat. cbn [negb].
  unfold write_and_report at 1. unfold write_dataframe at 1. rewrite Hwrite. reflexivity.
Qed.

Lemma failed_write_of_the_merge_falls_back_witness :
  persist sheet_read strict_sheet_write (Some earlier_sheet) wider_batch
  = write_and_report strict_sheet_write (Some earlier_sheet)
      [ExistingRows 2; CombinedRows 3; ReadFailed ServiceFault] wider_batch.
Proof.
  apply (failed_write_of_the_merge_falls_back _ sheet_read strict_sheet_write
           (Some earlier_sheet) (Some earlier_sheet) (Some earlier_sheet) earlier_sheet
           {| columns := [VStr "キャンペーンID"; VStr "インプレッション数"; VStr "取得日時"];
              rows := drop 1 earlier_sheet |}
           wider_batch
           {| columns := [VStr "キャンペーンID"; VStr "インプレッション数"; VStr "取得日時";
                          VStr "クリック数"];
              rows := [ [VStr "100001"; VStr "1100"; VStr "2025-03-09 09:00:00"; VNaN];
                        [VStr "100002"; VStr "2200"; VStr "2025-03-09 09:00:00"; VNaN];
                        [VStr "100001"; VInt 1100; VStr "2025-03-10 09:00:00"; VFloat 60] ] |}
           ServiceFault); vm_compute; reflexivity.
Defined.

(** X15. A destination that is not empty, whose header repeats a label
    and is not the header of the batch, cannot be stacked: step 3 reports
    it as a failed read and writes the batch alone from the top of the
    destination. *)
Theorem repeated_label_destination_is_overwritten
    (store : Type) (read_range : store -> store * result (list (list value)))
    (write_range : store -> list (list value) -> store * result Z)
    (st st1 : store) (values : list (list value)) (existing df : DataFrame) :
  read_range st = (st1, OK values) ->
  frame_of_values values = OK existing ->
  df_empty existing = false ->
  columns existing <> columns df ->
  ~ NoDup (columns existing) ->
  persist read_range write_range st df
  = write_and_report write_range st1
      [ExistingRows (length (rows existing)); ReadFailed InvalidIndexError] df.
Proof.
  intros Hread Hframe Hempty Hne Hdup.
  unfold persist, merge_and_write, read_as_dataframe. rewrite Hread.
  cbn [mbind result_bind]. rewrite Hframe, Hempty. cbn [negb]. unfold concat.
  rewrite decide_False by exact Hne. rewrite (bool_decide_eq_false_2 _ Hdup). reflexivity.
Qed.

Lemma repeated_label_destination_is_overwritten_witness :
  persist sheet_read sheet_write (Some repeated_label_sheet) same_labels_batch
  = (Some (frame_values same_labels_batch),
     [ExistingRows 1; ReadFailed InvalidIndexError; CellsUpdated 6], OK tt).
Proof.
  rewrite (repeated_label_destination_is_overwritten _ sheet_read sheet_write
             (Some repeated_label_sheet) (Some repeated_label_sheet) repeated_label_sheet
             {| columns := [VStr "キャンペーンID"; VStr "メモ"; VStr "メモ"];
                rows := [ [VStr "100001"; VStr "a"; VStr "b"] ] |}
             same_labels_batch eq_refl eq_refl eq_refl).
  - vm_compute. reflexivity.
  - discriminate.
  - intros H. apply NoDup_cons in H as [_ H]. apply NoDup_cons in H as [H _].
    apply H. left.
Defined.

(** ** The table of a run *)

Lemma frame_of_records_wf (records : list (list (value * value))) (row : list value) :
  In row (rows (frame_of_records records)) ->
  length row = length (columns (frame_of_records records)).
Proof.
  unfold frame_of_records. cbn [rows columns]. intros H.
  apply in_map_iff in H as (r & <- & _). apply length_map.
Qed.

(** The inference of the dtypes keeps the width of the rows. *)
Lemma convert_columns_wf (df typed : DataFrame) :
  convert_columns df = OK typed ->
  (forall row, In row (rows df) -> length row = length (columns df)) ->
  forall row, In row (rows typed) -> length row = length (columns typed).
Proof.
  unfold convert_columns. intros H Hwf row Hrow.
  apply bind_OK in H as (cols & _ & H). injection H as <-. cbn [rows columns] in *.
  apply list_elem_of_In, elem_of_lookup_imap in Hrow as (i & r & -> & Hr).
  rewrite length_imap. apply Hwf. apply list_elem_of_In.
  apply (list_elem_of_lookup_2 _ i). exact Hr.
Qed.

Lemma set_column_columns (label v : value) (f g : DataFrame) :
  columns f = columns g ->
  columns (set_column label v f) = columns (set_column label v g).
Proof.
  intros H. unfold set_column. rewrite H.
  destruct (list_find _ (columns g)) as [[j c]|]; cbn [columns]; rewrite ?H; reflexivity.
Qed.

(** After [df['取得日時'] = now] every row has the time under that label. *)
Lemma time_column (now : string) (f : DataFrame) :
  (forall row, In row (rows f) -> length row = length (columns f)) ->
  exists j,
    col_pos (VStr "取得日時") (columns (set_column (VStr "取得日時") (VStr now) f)) = OK j
    /\ forall row, In row (rows (set_column (VStr "取得日時") (VStr now) f)) ->
         cell j row = VStr now
         /\ length row = length (columns (set_column (VStr "取得日時") (VStr now) f)).
Proof.
  intros Hwf. unfold set_column, col_pos.
  destruct (list_find (λ c, c = VStr "取得日時") (columns f)) as [[j c]|] eqn:E;
    cbn [columns rows].
  - exists j. rewrite E. split; [reflexivity|].
    intros row Hrow. apply in_map_iff in Hrow as (r & <- & Hr).
    apply list_find_Some in E as (Hj & _ & _). apply lookup_lt_Some in Hj.
    rewrite length_insert. split; [|apply Hwf, Hr].
    unfold cell. rewrite list_lookup_insert_eq; [reflexivity|].
    rewrite (Hwf r Hr). exact Hj.
  - exists (length (columns f)). split.
    + rewrite list_find_app_r by exact E.
      assert (list_find (λ c, c = VStr "取得日時") [VStr "取得日時"]
              = Some (0%nat, VStr "取得日時")) as ->.
      { apply list_find_Some. split; [reflexivity|]. split; [reflexivity|].
        intros i y _ Hi. lia. }
      simpl. f_equal; lia.
    + intros row Hrow. apply in_map_iff in Hrow as (r & <- & Hr).
      split.
      * unfold cell. rewrite <- (Hwf r Hr). rewrite lookup_app_r by lia.
        rewrite Nat.sub_diag. reflexivity.
      * rewrite !length_app. cbn [length]. rewrite (Hwf r Hr). reflexivity.
Qed.

(** X16. Every row of the table a run persists has the retrieval time of
    the run under '取得日時', the same on all rows, and is as wide as the
    header; the table has one row per record.  This holds of the table
    as it is laid out from the records and of the table with the dtypes
    pandas gives its columns, which has the same header. *)
Theorem retrieval_time_on_every_row (now : string) (records : list (list (value * value))) :
  exists j,
    col_pos (VStr "取得日時") (columns (new_frame now records)) = OK j
    /\ length (rows (new_frame now records)) = length records
    /\ (forall row, In row (rows (new_frame now records)) ->
          cell j row = VStr now
          /\ length row = length (columns (new_frame now records)))
    /\ (forall frame,
          tabulate now records = OK frame ->
          columns frame = columns (new_frame now records)
          /\ length (rows frame) = length records
          /\ forall row, In row (rows frame) ->
               cell j row = VStr now /\ length row = length (columns frame)).
Proof.
  destruct (time_column now (frame_of_records records) (frame_of_records_wf records))
    as (j & Hj & Hrows).
  exists j. fold (new_frame now records) in Hj, Hrows.
  split; [exact Hj|]. split.
  { unfold new_frame. rewrite set_column_rows. apply frame_of_records_rows. }
  split; [exact Hrows|].
  intros frame Hframe. pose proof (tabulate_rows _ _ _ Hframe) as Hlen.
  unfold tabulate, data_frame in Hframe. apply bind_OK in Hframe as (typed & Htyped & Hframe).
  injection Hframe as <-.
  assert (Hcols : columns (set_column (VStr "取得日時") (VStr now) typed)
                  = columns (new_frame now records)).
  { apply set_column_columns. apply (convert_columns_shape _ _ Htyped). }
  split; [exact Hcols|]. split; [exact Hlen|].
  destruct (time_column now typed) as (j' & Hj' & Hrows').
  { apply (convert_columns_wf _ _ Htyped), frame_of_records_wf. }
  rewrite Hcols, Hj in Hj'. injection Hj' as <-. exact Hrows'.
Qed.

(** Setting a key keeps the keys that are there, in their order, and
    keeps them distinct. *)
Lemma dict_set_keys {V} (k : value) (v : V) (d : list (value * V)) :
  exists extra, dict_keys (dict_set k v d) = dict_keys d ++ extra.
Proof.
  unfold dict_keys. induction d as [|[k' v'] d IH]; simpl.
  - exists [k]. reflexivity.
  - destruct (decide (k' = k)) as [->|Hne]; simpl.
    + exists []. rewrite app_nil_r. reflexivity.
    + destruct IH as (extra & ->). exists extra. reflexivity.
Qed.

Lemma dict_set_nodup {V} (k : value) (v : V) (d : list (value * V)) :
  NoDup (dict_keys d) -> NoDup (dict_keys (dict_set k v d)).
Proof.
  induction d as [|[k' v'] d IH]; simpl.
  - intros _. apply NoDup_singleton.
  - destruct (decide (k' = k)) as [->|Hne]; simpl; [auto|].
    intros H. apply NoDup_cons in H as [Hk H]. apply NoDup_cons. split; [|exact (IH H)].
    rewrite list_elem_of_In in *. intros Hin.
    change (In k' (dict_keys (dict_set k v d))) in Hin.
    apply dict_keys_set in Hin as [->|Hin]; [congruence | exact (Hk Hin)].
Qed.

Lemma put_metrics_keys df val l : forall acc acc',
  foldM (put_metric df val) acc l = OK acc' ->
  (exists extra, dict_keys acc'.1 = dict_keys acc.1 ++ extra)
  /\ (NoDup (dict_keys acc.1) -> NoDup (dict_keys acc'.1)).
Proof.
  induction l as [|x l IH]; intros acc acc' H.
  - injection H as <-. split; [exists []; symmetry; apply app_nil_r | auto].
  - rewrite foldM_cons in H. apply bind_OK in H as (acc1 & Hstep & H).
    destruct (IH _ _ H) as [(extra & Hkeys) Hnd]. unfold put_metric in Hstep.
    apply bind_OK in Hstep as (nm & _ & Hstep). apply bind_OK in Hstep as ([v|] & _ & Hstep);
      injection Hstep as <-; cbn [fst] in *.
    + destruct (dict_set_keys nm v acc.1) as (extra1 & Hset). split.
      * exists (extra1 ++ extra). rewrite Hkeys, Hset, app_assoc. reflexivity.
      * intros Hacc. apply Hnd, dict_set_nodup, Hacc.
    + split; [eauto | exact Hnd].
Qed.

(** The keys of the record only grow, in their order. *)
Lemma calculated_keys_grow py_eval (l : list (value * calc_info)) :
  forall acc acc',
  foldM (add_calculated py_eval) acc l = OK acc' ->
  (exists extra, dict_keys acc'.2 = dict_keys acc.2 ++ extra)
  /\ (NoDup (dict_keys acc.2) -> NoDup (dict_keys acc'.2)).
Proof.
  induction l as [|x l IH]; intros acc acc' H.
  - injection H as <-. split; [exists []; symmetry; apply app_nil_r | auto].
  - rewrite foldM_cons in H. apply bind_OK in H as (acc1 & Hstep & H).
    destruct (IH _ _ H) as [(extra & Hkeys) Hnd].
    apply add_calculated_OK in Hstep as (v & Hstep). rewrite Hstep in *.
    destruct (dict_set_keys (name x.2) v acc.2) as (extra1 & Hset). split.
    + exists (extra1 ++ extra). rewrite Hkeys, Hset, app_assoc. reflexivity.
    + intros Hacc. apply Hnd, dict_set_nodup, Hacc.
Qed.

Lemma campaign_columns_nodup : NoDup campaign_columns.
Proof. apply (bool_decide_unpack _). vm_compute. exact I. Qed.

Lemma record_keys py_eval derived (base : list (value * value))
    (acc1 done : list (value * value) * list (value * value)) :
  dict_keys base = campaign_columns ->
  (exists extra, dict_keys acc1.1 = dict_keys base ++ extra) ->
  (NoDup (dict_keys base) -> NoDup (dict_keys acc1.1)) ->
  foldM (add_calculated py_eval) (acc1.2, acc1.1) derived = OK done ->
  (exists rest, dict_keys done.2 = campaign_columns ++ rest) /\ NoDup (dict_keys done.2).
Proof.
  intros Hbase (extra & Hkeys) Hnd Hdone.
  destruct (calculated_keys_grow py_eval derived _ _ Hdone) as [(extra' & Hk) Hn].
  cbn [snd] in Hk, Hn. split.
  - exists (extra ++ extra'). rewrite Hk, Hkeys, Hbase, app_assoc. reflexivity.
  - apply Hn, Hnd. rewrite Hbase. apply campaign_columns_nodup.
Qed.

Lemma shaped_record_keys py_eval df active derived row rec :
  shape_row py_eval df active derived row = OK rec ->
  (exists rest, dict_keys rec = campaign_columns ++ rest) /\ NoDup (dict_keys rec).
Proof.
  unfold shape_row. intros H. apply bind_OK in H as (acc & Hfold & H).
  apply bind_OK in H as (done & Hdone & H). injection H as <-.
  rewrite (foldM_ext _ (put_metric df (live_value (metrics row)))) in Hfold
    by (intros; apply add_metric_put).
  destruct (put_metrics_keys _ _ _ _ _ Hfold) as [Hkeys Hnd].
  eapply record_keys; [|exact Hkeys|exact Hnd|exact Hdone]. reflexivity.
Qed.

Lemma dummy_record_keys py_eval df active derived i rec :
  dummy_campaign py_eval df active derived i = OK rec ->
  (exists rest, dict_keys rec = campaign_columns ++ rest) /\ NoDup (dict_keys rec).
Proof.
  unfold dummy_campaign. intros H. apply bind_OK in H as (acc & Hfold & H).
  apply bind_OK in H as (done & Hdone & H). injection H as <-.
  rewrite (foldM_ext _ (put_metric df (dummy_metric_value i)))
    in Hfold by (intros; apply add_dummy_metric_put).
  destruct (put_metrics_keys _ _ _ _ _ Hfold) as [Hkeys Hnd].
  eapply record_keys; [|exact Hkeys|exact Hnd|exact Hdone]. reflexivity.
Qed.

Lemma frame_header_grows (records : list (list (value * value))) : forall acc,
  exists extra,
    fold_left (λ acc r, add_new acc (dict_keys r)) records acc = acc ++ extra.
Proof.
  induction records as [|r records IH]; intros acc; simpl.
  - exists []. symmetry. apply app_nil_r.
  - destruct (add_new_app (dict_keys r) acc) as (extra1 & -> & _).
    destruct (IH (acc ++ extra1)) as (extra & ->). exists (extra1 ++ extra).
    rewrite app_assoc. reflexivity.
Qed.

(** X17. Every record of the live path and of the dummy path has the
    columns of the campaign first, in the order id, name, status, type,
    and no column twice; and the header of the table a run persists, as
    laid out from the records and with its dtypes, begins with these four
    columns, whatever the configuration asks for. *)
Theorem table_begins_with_the_campaign_columns
    (py_eval : evaluator)
    (df : DataFrame) (active : list value) (derived : list (value * calc_info)) :
  (forall row rec, shape_row py_eval df active derived row = OK rec ->
     (exists rest, dict_keys rec = campaign_columns ++ rest) /\ NoDup (dict_keys rec))
  /\ (forall i rec, dummy_campaign py_eval df active derived i = OK rec ->
        (exists rest, dict_keys rec = campaign_columns ++ rest) /\ NoDup (dict_keys rec))
  /\ (forall now rec records,
        ((exists row, shape_row py_eval df active derived row = OK rec)
         \/ (exists i, dummy_campaign py_eval df active derived i = OK rec)) ->
        exists rest,
          columns (new_frame now (rec :: records)) = campaign_columns ++ rest
          /\ forall frame, tabulate now (rec :: records) = OK frame ->
                           columns frame = campaign_columns ++ rest).
Proof.
  split; [|split].
  - intros row rec. apply shaped_record_keys.
  - intros i rec. apply dummy_record_keys.
  - intros now rec records Hrec.
    assert ((exists rest, dict_keys rec = campaign_columns ++ rest) /\ NoDup (dict_keys rec))
      as [(rest & Hkeys) Hnd].
    { destruct Hrec as [(row & H)|(i & H)];
        [eapply shaped_record_keys | eapply dummy_record_keys]; exact H. }
    assert (exists extra, columns (frame_of_records (rec :: records))
                          = dict_keys rec ++ extra) as (extra & Hcols).
    { unfold frame_of_records. cbn [columns fold_left].
      rewrite (add_new_nodup (dict_keys rec) []) by exact Hnd. apply frame_header_grows. }
    assert (exists rest', columns (new_frame now (rec :: records))
                          = campaign_columns ++ rest') as (rest' & Hnew).
    { unfold new_frame, set_column.
      destruct (list_find _ (columns (frame_of_records (rec :: records)))) as [[j c]|];
        cbn [columns]; rewrite Hcols, Hkeys, <- ?app_assoc; eauto. }
    exists rest'. split; [exact Hnew|]. intros frame Hframe.
    unfold tabulate, data_frame in Hframe.
    apply bind_OK in Hframe as (typed & Htyped & Hframe). injection Hframe as <-.
    rewrite <- Hnew. apply set_column_columns, (convert_columns_shape _ _ Htyped).
Qed.

(** ** Field names *)

(** X18. [get_field_mapping] puts 'metrics.' before the seven metrics it
    knows and returns any other key, text or not, as it is; applying it
    to its own result changes nothing. *)
Theorem field_mapping_is_idempotent (metric : value) :
  get_field_mapping (get_field_mapping metric) = get_field_mapping metric
  /\ (forall s, metric = VStr s -> In s known_fields ->
                get_field_mapping metric = VStr ("metrics." +:+ s))
  /\ ((forall s, metric = VStr s -> ~ In s known_fields) ->
      get_field_mapping metric = metric).
Proof.
  split; [|split].
  - destruct metric as [| |b|z|q|s|neg]; try reflexivity. unfold get_field_mapping at 2.
    destruct (bool_decide (s ∈ known_fields)) eqn:E.
    + apply bool_decide_eq_true in E. apply list_elem_of_In in E. simpl in E.
      repeat (destruct E as [<-|E]; [reflexivity|]). destruct E.
    + unfold get_field_mapping. rewrite E. reflexivity.
  - intros s -> Hs. unfold get_field_mapping.
    rewrite bool_decide_eq_true_2; [reflexivity | apply list_elem_of_In, Hs].
  - intros H. destruct metric as [| |b|z|q|s|neg]; try reflexivity. unfold get_field_mapping.
    rewrite bool_decide_eq_false_2; [reflexivity|].
    rewrite list_elem_of_In. apply (H s eq_refl).
Qed.

(** ** Appending by rewriting *)

(** X19. Under a destination that reads back as a rectangle (a header
    and at least one row, every row as wide as the header) and a batch
    with the same header, the table step 3 writes is the rectangle that
    was read followed by the rows of the batch, the rectangle
    [append_dataframe] would have added: rewriting the whole table
    amounts to an append. *)
Theorem rewrite_is_an_append
    (headers : list value) (data : list (list value)) (df : DataFrame) :
  headers <> [] ->
  data <> [] ->
  (forall r, In r data -> length r = length headers) ->
  columns df = headers ->
  forall (store : Type) (read_range : store -> store * result (list (list value)))
         (write_range : store -> list (list value) -> store * result Z)
         (st st1 st2 : store) (n : Z),
    read_range st = (st1, OK (headers :: data)) ->
    write_range st1 ((headers :: data) ++ dataframe_values false df) = (st2, OK n) ->
    persist read_range write_range st df
    = (st2,
       [ExistingRows (length data); CombinedRows (length data + length (rows df));
        CellsUpdated n],
       OK tt).
Proof.
  intros Hh Hd Hwf Hcols store read_range write_range st st1 st2 n Hread Hwrite.
  assert (Hframe : frame_of_values (headers :: data)
                   = OK {| columns := headers; rows := data |}).
  { unfold frame_of_values. rewrite frame_of_lists_rows by exact Hd. cbv zeta.
    rewrite (widest_of_equal (length headers) data Hd Hwf), Nat.eqb_refl.
    rewrite (pad_nothing _ _ Hwf). reflexivity. }
  unfold persist, merge_and_write, read_as_dataframe. rewrite Hread.
  cbn [mbind result_bind]. rewrite Hframe.
  assert (df_empty {| columns := headers; rows := data |} = false) as ->
    by (destruct headers, data; try congruence; reflexivity).
  cbn [negb]. unfold concat. cbn [columns rows]. rewrite decide_True by congruence.
  unfold write_and_report, write_dataframe, frame_values. cbn [columns rows].
  unfold dataframe_values in Hwrite. cbn [app] in Hwrite. rewrite Hwrite.
  rewrite length_app. reflexivity.
Qed.

Lemma rewrite_is_an_append_witness :
  persist sheet_read sheet_write (Some earlier_sheet) same_labels_batch
  = (Some (earlier_sheet ++ dataframe_values false same_labels_batch),
     [ExistingRows 2; CombinedRows 3; CellsUpdated 12], OK tt).
Proof.
  apply (rewrite_is_an_append
           [VStr "キャンペーンID"; VStr "インプレッション数"; VStr "取得日時"]
           (drop 1 earlier_sheet) same_labels_batch)
    with (st1 := Some earlier_sheet).
  - discriminate.
  - discriminate.
  - intros r Hr. simpl in Hr. destruct Hr as [<-|[<-|[]]]; reflexivity.
  - reflexivity.
  - reflexivity.
  - vm_compute. reflexivity.
Defined.

(** ** Looking a sheet up *)

(** X20. [get_sheet_id] never answers with the id of another sheet: an
    id it returns is the 'sheetId' of the first sheet of that title, and
    when no sheet has the title it returns [None]; a fault of the
    service is raised again. *)
Theorem sheet_id_is_of_the_named_sheet
    (sheet_name : string) (sheets : list (option SpreadsheetLookup.sheet_properties)) :
  (forall id, SpreadsheetLookup.get_sheet_id (OK sheets) sheet_name = OK (Some id) ->
     exists i props,
       sheets !! i = Some (Some props)
       /\ SpreadsheetLookup.title props = Some sheet_name
       /\ SpreadsheetLookup.sheetId props = Some id
       /\ forall j sheet, (j < i)%nat -> sheets !! j = Some sheet ->
            sheet ≫= SpreadsheetLookup.title <> Some sheet_name)
  /\ ((forall sheet, In sheet sheets -> sheet ≫= SpreadsheetLookup.title <> Some sheet_name) ->
      SpreadsheetLookup.get_sheet_id (OK sheets) sheet_name = OK None)
  /\ (forall e, SpreadsheetLookup.get_sheet_id (Raise e) sheet_name = Raise e).
Proof.
  unfold SpreadsheetLookup.get_sheet_id. cbn [mbind result_bind].
  split; [|split; [|reflexivity]].
  - induction sheets as [|sheet sheets IH]; intros id H; [discriminate|].
    injection H as H. simpl in H.
    destruct (bool_decide (sheet ≫= SpreadsheetLookup.title = Some sheet_name)) eqn:E.
    + apply bool_decide_eq_true in E. destruct sheet as [props|]; [|discriminate].
      exists 0%nat, props. simpl in *. repeat split; auto. intros j s Hj. lia.
    + apply bool_decide_eq_false in E.
      destruct (IH id) as (i & props & Hi & Ht & Hid & Hfirst); [rewrite H; reflexivity|].
      exists (S i), props. repeat split; auto.
      intros [|j] s Hj Hs; simpl in Hs.
      * injection Hs as <-. exact E.
      * apply (Hfirst j s); [lia | exact Hs].
  - intros Hnone. f_equal. induction sheets as [|sheet sheets IH]; [reflexivity|]. simpl.
    rewrite bool_decide_eq_false_2 by (apply Hnone; simpl; auto).
    apply IH. intros; apply Hnone; simpl; auto.
Qed.
